(** * apps/api/server.py: the health-check HTTP endpoint

    A shallow embedding of [apps/api/server.py] and of the parts of the
    Python runtime it calls ([int], [str], [json.dumps], [os.getenv] and
    the request handling of [http.server.BaseHTTPRequestHandler]),
    followed by the properties of the service.

    Conventions of the embedding:
    - a Python [str] is a Rocq [string], one character per code point,
      so the embedding covers the code points below 256.  This is exact
      for the request line, which the library decodes as iso-8859-1;
    - a Python [bytes] is a [list byte];
    - a Python [int] is a [Z];
    - a [dict] is an association list in insertion order;
    - the attributes of [self] that the handler reads and writes are a
      record threaded through a state monad. *)

From Stdlib Require Import ZArith NArith Ascii String List Lia.
From stdpp Require Import base list strings gmap.

Set Warnings "-register-all".

Open Scope Z_scope.

(** ** Characters, text and bytes *)

Definition bytes := list Byte.byte.

Definition ord (c : ascii) : N := N_of_ascii c.
Definition chr (n : N) : ascii := ascii_of_N n.

Definition dquote : ascii := "034"%char.
Definition backslash : ascii := "092"%char.
Definition CR : ascii := "013"%char.
Definition LF : ascii := "010"%char.

Definition text (cs : list ascii) : string := string_of_list_ascii cs.
Definition chars (s : string) : list ascii := list_ascii_of_string s.

(** [s.encode("latin-1")]: one byte per code point below 256. *)
Definition encode_latin1 (s : string) : bytes :=
  map byte_of_ascii (chars s).

(** [s.encode("utf-8")] on code points below 256: one byte below 128,
    otherwise the two bytes [110xxxxx 10xxxxxx]. *)
Definition utf8_of_char (c : ascii) : list ascii :=
  let n := ord c in
  if (n <? 128)%N then [c]
  else [chr (192 + n / 64); chr (128 + n mod 64)].

Definition encode_utf8 (s : string) : bytes :=
  map byte_of_ascii (flat_map utf8_of_char (chars s)).

(** [sep.join(parts)] *)
Fixpoint join (sep : string) (parts : list string) : string :=
  match parts with
  | [] => ""
  | [p] => p
  | p :: ps => p +:+ sep +:+ join sep ps
  end.

(** ASCII [str.lower], used to compare header names. *)
Definition lower_char (c : ascii) : ascii :=
  let n := ord c in
  if ((65 <=? n) && (n <=? 90))%N then chr (n + 32) else c.

Definition lower (s : string) : string := text (map lower_char (chars s)).

(** ** [str(n)] and [int(s)] *)

Definition is_digit (c : ascii) : bool :=
  ((48 <=? ord c) && (ord c <=? 57))%N.

Definition digit_value (c : ascii) : Z := Z.of_N (ord c) - 48.

Definition digit_char (d : N) : ascii := chr (48 + d).

(** The decimal digits of [n], most significant first, in front of
    [acc]; [fuel] bounds the number of digits. *)
Fixpoint decimal_digits (fuel : nat) (n : N) (acc : list ascii) : list ascii :=
  match fuel with
  | O => acc
  | S fuel' =>
      let acc' := digit_char (n mod 10) :: acc in
      if (n / 10 =? 0)%N then acc' else decimal_digits fuel' (n / 10) acc'
  end.

Definition decimal (n : N) : list ascii :=
  decimal_digits (S (N.to_nat (N.log2 n))) n [].

(** [str(n)] for an [int]: a minus sign for a negative number, no
    leading zero, ["0"] for zero. *)
Definition py_str (n : Z) : string :=
  if n <? 0 then text ("-"%char :: decimal (Z.to_N (- n)))
  else text (decimal (Z.to_N n)).

(** White space as [int] sees it.  Below 127 it is the C-locale
    [isspace] set; [U+0085] and [U+00A0] are the white-space code points
    of the range 128..255, which [int] first rewrites to a space. *)
Definition is_space (c : ascii) : bool :=
  let n := ord c in
  ((9 <=? n) && (n <=? 13) || (n =? 32) || (n =? 133) || (n =? 160))%N.

Fixpoint lstrip (cs : list ascii) : list ascii :=
  match cs with
  | c :: cs' => if is_space c then lstrip cs' else cs
  | [] => []
  end.

(** The run of digits at the head of a literal.  A single underscore
    may separate two digits; [after_digit] tells whether the previous
    character was a digit.  The result is the value, the number of
    digits read and the unread rest; [None] is a misplaced underscore. *)
Fixpoint scan_digits (cs : list ascii) (after_digit : bool) (acc : Z) (count : nat)
  : option (Z * nat * list ascii) :=
  match cs with
  | c :: cs' =>
      if is_digit c then scan_digits cs' true (10 * acc + digit_value c) (S count)
      else if Ascii.eqb c "_" then
        if after_digit then
          match cs' with
          | d :: _ => if is_digit d then scan_digits cs' false acc count else None
          | [] => None
          end
        else None
      else Some (acc, count, cs)
  | [] => Some (acc, count, [])
  end.

(** The interpreter's limit on the digits of a decimal literal
    ([sys.get_int_max_str_digits()], 0 when disabled) is consulted for
    literals of more than 640 digits only. *)
Definition too_many_digits (max_str_digits count : nat) : bool :=
  (640 <? count)%nat && (0 <? max_str_digits)%nat && (max_str_digits <? count)%nat.

(** [int(s)] in base 10: optional white space, an optional sign, digits,
    optional white space.  [None] stands for [ValueError]. *)
Definition py_int (max_str_digits : nat) (s : string) : option Z :=
  let cs := lstrip (chars s) in
  let '(negative, cs) :=
    match cs with
    | c :: cs' =>
        if Ascii.eqb c "-" then (true, cs')
        else if Ascii.eqb c "+" then (false, cs')
        else (false, cs)
    | [] => (false, [])
    end in
  match scan_digits cs false 0 O with
  | Some (value, count, rest) =>
      if (count =? 0)%nat then None
      else if too_many_digits max_str_digits count then None
      else
        match lstrip rest with
        | [] => Some (if negative then - value else value)
        | _ :: _ => None
        end
  | None => None
  end.

(** ** [json.dumps]

    The values [json.dumps] serialises with its default settings, floats
    apart: [None], [bool], [int], [str], [list] and [dict] with [str]
    keys. *)

Inductive value : Type :=
| VNone
| VBool (b : bool)
| VInt (n : Z)
| VStr (s : string)
| VList (items : list value)
| VDict (items : list (string * value)).

Definition hex_digit (d : N) : ascii :=
  if (d <? 10)%N then chr (48 + d) else chr (87 + d).

(** One character of a string literal under [ensure_ascii=True]: the
    short escapes, the character itself from space to tilde, and
    [\u00xx] for every other code point. *)
Definition escape_char (c : ascii) : list ascii :=
  let n := ord c in
  if Ascii.eqb c dquote then [backslash; dquote]
  else if Ascii.eqb c backslash then [backslash; backslash]
  else if (n =? 10)%N then [backslash; "n"%char]
  else if (n =? 13)%N then [backslash; "r"%char]
  else if (n =? 9)%N then [backslash; "t"%char]
  else if (n =? 8)%N then [backslash; "b"%char]
  else if (n =? 12)%N then [backslash; "f"%char]
  else if ((32 <=? n) && (n <=? 126))%N then [c]
  else [backslash; "u"%char; "0"%char; "0"%char;
        hex_digit (n / 16); hex_digit (n mod 16)].

Definition encode_basestring_ascii (s : string) : string :=
  text (dquote :: flat_map escape_char (chars s) ++ [dquote]).

(** [json.dumps(v)]: item separator [", "], key separator [": "], keys
    in insertion order. *)
Fixpoint dumps (v : value) : string :=
  match v with
  | VNone => "null"
  | VBool true => "true"
  | VBool false => "false"
  | VInt n => py_str n
  | VStr s => encode_basestring_ascii s
  | VList items => "[" +:+ join ", " (map dumps items) +:+ "]"
  | VDict items =>
      "{" +:+
      join ", " (map (fun kv => encode_basestring_ascii (fst kv) +:+ ": " +:+ dumps (snd kv)) items)
      +:+ "}"
  end.

(** ** JSON texts (RFC 8259)

    What a client obtains when it deserialises a body.  A number keeps
    its literal; a string is decoded and carried as UTF-8; an object
    keeps its members in the order of the text. *)

Inductive json : Type :=
| JNull
| JBool (b : bool)
| JNumber (literal : string)
| JString (s : string)
| JArray (elements : list json)
| JObject (members : list (string * json)).

Definition is_json_ws (c : ascii) : bool :=
  let n := ord c in ((n =? 32) || (n =? 9) || (n =? 10) || (n =? 13))%N.

Fixpoint skip_ws (cs : list ascii) : list ascii :=
  match cs with
  | c :: cs' => if is_json_ws c then skip_ws cs' else cs
  | [] => []
  end.

Fixpoint strip_prefix (p cs : list ascii) : option (list ascii) :=
  match p, cs with
  | [], _ => Some cs
  | a :: p', c :: cs' => if Ascii.eqb a c then strip_prefix p' cs' else None
  | _ :: _, [] => None
  end.

Definition hex_value (c : ascii) : option N :=
  let n := ord c in
  if ((48 <=? n) && (n <=? 57))%N then Some (n - 48)%N
  else if ((97 <=? n) && (n <=? 102))%N then Some (n - 87)%N
  else if ((65 <=? n) && (n <=? 70))%N then Some (n - 55)%N
  else None.

Definition hex4 (a b c d : ascii) : option N :=
  match hex_value a, hex_value b, hex_value c, hex_value d with
  | Some x, Some y, Some z, Some w => Some (((x * 16 + y) * 16 + z) * 16 + w)%N
  | _, _, _, _ => None
  end.

(** UTF-8 of a code point below [0x110000]. *)
Definition utf8_of_code_point (n : N) : list ascii :=
  if (n <? 128)%N then [chr n]
  else if (n <? 2048)%N then [chr (192 + n / 64); chr (128 + n mod 64)]
  else if (n <? 65536)%N then
    [chr (224 + n / 4096); chr (128 + (n / 64) mod 64); chr (128 + n mod 64)]
  else
    [chr (240 + n / 262144); chr (128 + (n / 4096) mod 64);
     chr (128 + (n / 64) mod 64); chr (128 + n mod 64)].

Definition is_high_surrogate (n : N) : bool := ((55296 <=? n) && (n <=? 56319))%N.
Definition is_low_surrogate (n : N) : bool := ((56320 <=? n) && (n <=? 57343))%N.

(** The low half of a surrogate pair written as a second [\uXXXX]. *)
Definition low_surrogate_escape (cs : list ascii) : option (N * list ascii) :=
  match cs with
  | b :: u :: e :: f :: g :: h :: rest =>
      if Ascii.eqb b backslash && Ascii.eqb u "u" then
        match hex4 e f g h with
        | Some lo => if is_low_surrogate lo then Some (lo, rest) else None
        | None => None
        end
      else None
  | _ => None
  end.

(** A string after its opening quote; [acc] is the decoded text so far,
    last character first. *)
Fixpoint parse_string_tail (cs acc : list ascii) : option (string * list ascii) :=
  match cs with
  | [] => None
  | c :: cs' =>
      if Ascii.eqb c dquote then Some (text (rev acc), cs')
      else if Ascii.eqb c backslash then
        match cs' with
        | [] => None
        | e :: cs'' =>
            if Ascii.eqb e dquote || Ascii.eqb e backslash || Ascii.eqb e "/"
            then parse_string_tail cs'' (e :: acc)
            else if Ascii.eqb e "b" then parse_string_tail cs'' (chr 8 :: acc)
            else if Ascii.eqb e "f" then parse_string_tail cs'' (chr 12 :: acc)
            else if Ascii.eqb e "n" then parse_string_tail cs'' (chr 10 :: acc)
            else if Ascii.eqb e "r" then parse_string_tail cs'' (chr 13 :: acc)
            else if Ascii.eqb e "t" then parse_string_tail cs'' (chr 9 :: acc)
            else if Ascii.eqb e "u" then
              match cs'' with
              | h1 :: h2 :: h3 :: h4 :: rest =>
                  match hex4 h1 h2 h3 h4 with
                  | Some n =>
                      match (if is_high_surrogate n then low_surrogate_escape rest else None) with
                      | Some (lo, _) =>
                          match rest with
                          | _ :: _ :: _ :: _ :: _ :: _ :: rest' =>
                              let cp := (65536 + (n - 55296) * 1024 + (lo - 56320))%N in
                              parse_string_tail rest' (rev (utf8_of_code_point cp) ++ acc)
                          | _ => None
                          end
                      | None => parse_string_tail rest (rev (utf8_of_code_point n) ++ acc)
                      end
                  | None => None
                  end
              | _ => None
              end
            else None
        end
      else if (ord c <? 32)%N then None
      else parse_string_tail cs' (c :: acc)
  end.

Fixpoint take_digits (cs : list ascii) : list ascii * list ascii :=
  match cs with
  | c :: cs' =>
      if is_digit c then let '(ds, rest) := take_digits cs' in (c :: ds, rest)
      else ([], cs)
  | [] => ([], [])
  end.

(** [number = [ "-" ] int [ frac ] [ exp ]], where [int] has no leading
    zero. *)
Definition parse_number (cs : list ascii) : option (string * list ascii) :=
  let '(sign, cs1) :=
    match cs with
    | c :: cs' => if Ascii.eqb c "-" then (["-"%char], cs') else ([], cs)
    | [] => ([], [])
    end in
  let '(int_part, cs2) := take_digits cs1 in
  match int_part with
  | [] => None
  | d :: ds =>
      if Ascii.eqb d "0" && negb (Nat.eqb (length ds) 0) then None
      else
        let frac :=
          match cs2 with
          | c :: cs' =>
              if Ascii.eqb c "." then
                let '(fs, rest) := take_digits cs' in
                match fs with [] => None | _ :: _ => Some (c :: fs, rest) end
              else Some ([], cs2)
          | [] => Some ([], [])
          end in
        match frac with
        | None => None
        | Some (frac_part, cs3) =>
            let exp :=
              match cs3 with
              | c :: cs' =>
                  if Ascii.eqb c "e" || Ascii.eqb c "E" then
                    let '(sg, cs'') :=
                      match cs' with
                      | s :: r => if Ascii.eqb s "+" || Ascii.eqb s "-" then ([s], r) else ([], cs')
                      | [] => ([], [])
                      end in
                    let '(es, rest) := take_digits cs'' in
                    match es with [] => None | _ :: _ => Some (c :: sg ++ es, rest) end
                  else Some ([], cs3)
              | [] => Some ([], [])
              end in
            match exp with
            | None => None
            | Some (exp_part, rest) =>
                Some (text (sign ++ int_part ++ frac_part ++ exp_part), rest)
            end
        end
  end.

(** [value], the rest of an array after ["["] and the rest of an object
    after ["{"]; each call uses one unit of [fuel]. *)
Fixpoint parse_value (fuel : nat) (cs : list ascii) : option (json * list ascii) :=
  match fuel with
  | O => None
  | S fuel' =>
      match cs with
      | [] => None
      | c :: cs' =>
          if Ascii.eqb c "{" then
            match skip_ws cs' with
            | d :: rest =>
                if Ascii.eqb d "}" then Some (JObject [], rest)
                else
                  match parse_members fuel' (d :: rest) [] with
                  | Some (ms, rest') => Some (JObject ms, rest')
                  | None => None
                  end
            | [] => None
            end
          else if Ascii.eqb c "[" then
            match skip_ws cs' with
            | d :: rest =>
                if Ascii.eqb d "]" then Some (JArray [], rest)
                else
                  match parse_elements fuel' (d :: rest) [] with
                  | Some (es, rest') => Some (JArray es, rest')
                  | None => None
                  end
            | [] => None
            end
          else if Ascii.eqb c dquote then
            match parse_string_tail cs' [] with
            | Some (s, rest) => Some (JString s, rest)
            | None => None
            end
          else if Ascii.eqb c "t" then
            match strip_prefix (chars "rue") cs' with
            | Some rest => Some (JBool true, rest)
            | None => None
            end
          else if Ascii.eqb c "f" then
            match strip_prefix (chars "alse") cs' with
            | Some rest => Some (JBool false, rest)
            | None => None
            end
          else if Ascii.eqb c "n" then
            match strip_prefix (chars "ull") cs' with
            | Some rest => Some (JNull, rest)
            | None => None
            end
          else
            match parse_number cs with
            | Some (lit, rest) => Some (JNumber lit, rest)
            | None => None
            end
      end
  end
with parse_elements (fuel : nat) (cs : list ascii) (acc : list json)
  : option (list json * list ascii) :=
  match fuel with
  | O => None
  | S fuel' =>
      match parse_value fuel' cs with
      | Some (v, rest) =>
          match skip_ws rest with
          | c :: rest' =>
              if Ascii.eqb c "]" then Some (rev (v :: acc), rest')
              else if Ascii.eqb c "," then parse_elements fuel' (skip_ws rest') (v :: acc)
              else None
          | [] => None
          end
      | None => None
      end
  end
with parse_members (fuel : nat) (cs : list ascii) (acc : list (string * json))
  : option (list (string * json) * list ascii) :=
  match fuel with
  | O => None
  | S fuel' =>
      match cs with
      | q :: cs' =>
          if Ascii.eqb q dquote then
            match parse_string_tail cs' [] with
            | Some (k, rest) =>
                match skip_ws rest with
                | colon :: rest1 =>
                    if Ascii.eqb colon ":" then
                      match parse_value fuel' (skip_ws rest1) with
                      | Some (v, rest2) =>
                          match skip_ws rest2 with
                          | c :: rest3 =>
                              if Ascii.eqb c "}" then Some (rev ((k, v) :: acc), rest3)
                              else if Ascii.eqb c ","
                              then parse_members fuel' (skip_ws rest3) ((k, v) :: acc)
                              else None
                          | [] => None
                          end
                      | None => None
                      end
                    else None
                | [] => None
                end
            | None => None
            end
          else None
      | [] => None
      end
  end.

(** A JSON text is one value between optional white space. *)
Definition parse_json_text (cs : list ascii) : option json :=
  match parse_value (2 * length cs + 2) (skip_ws cs) with
  | Some (v, rest) =>
      match skip_ws rest with
      | [] => Some v
      | _ :: _ => None
      end
  | None => None
  end.

(** Well-formed UTF-8 (RFC 3629), on the values of the bytes. *)
Definition is_continuation (b : N) : bool := ((128 <=? b) && (b <=? 191))%N.

Fixpoint well_formed_utf8 (bs : list N) : bool :=
  match bs with
  | [] => true
  | b :: rest =>
      if (b <? 128)%N then well_formed_utf8 rest
      else if ((194 <=? b) && (b <=? 223))%N then
        match rest with
        | c1 :: rest' => is_continuation c1 && well_formed_utf8 rest'
        | _ => false
        end
      else if ((224 <=? b) && (b <=? 239))%N then
        match rest with
        | c1 :: c2 :: rest' =>
            is_continuation c1 && is_continuation c2
            && negb ((b =? 224) && (c1 <? 160))%N
            && negb ((b =? 237) && (159 <? c1))%N
            && well_formed_utf8 rest'
        | _ => false
        end
      else if ((240 <=? b) && (b <=? 244))%N then
        match rest with
        | c1 :: c2 :: c3 :: rest' =>
            is_continuation c1 && is_continuation c2 && is_continuation c3
            && negb ((b =? 240) && (c1 <? 144))%N
            && negb ((b =? 244) && (143 <? c1))%N
            && well_formed_utf8 rest'
        | _ => false
        end
      else false
  end.

(** Deserialising a body, a JSON text encoded as UTF-8, and its
    syntactic validity. *)
Definition deserialize (body : bytes) : option json :=
  let cs := map ascii_of_byte body in
  if well_formed_utf8 (map ord cs) then parse_json_text cs else None.

Definition valid_json (body : bytes) : bool :=
  match deserialize body with Some _ => true | None => false end.

(** ** The interpreter and the library around the handler

    What [http.server] and the interpreter fix for a running process:
    - [version_string]: the value of the [Server] header
      ([server_version + ' ' + sys_version]);
    - [responses]: the table [BaseHTTPRequestHandler.responses], from a
      status code to its short and long message;
    - [error_message_format]: the error page, from the code, the message
      and the explanation;
    - [int_max_str_digits]: [sys.get_int_max_str_digits()]. *)

Record runtime : Type := {
  version_string : string;
  responses : Z -> option (string * string);
  error_message_format : Z -> string -> string -> string;
  int_max_str_digits : nat
}.

(** [repr(s)] of a [str], as the [%r] of the library's messages gives it.
    The printable code points below 256 are 32..126, 161..172 and
    174..255. *)
Definition is_printable (c : ascii) : bool :=
  let n := ord c in
  ((32 <=? n) && (n <=? 126) || (161 <=? n) && (n <=? 172) || (174 <=? n))%N.

Definition has_char (c : ascii) (s : string) : bool :=
  existsb (Ascii.eqb c) (chars s).

Definition repr_char (quote c : ascii) : list ascii :=
  let n := ord c in
  if Ascii.eqb c backslash then [backslash; backslash]
  else if Ascii.eqb c quote then [backslash; quote]
  else if (n =? 9)%N then [backslash; "t"%char]
  else if (n =? 10)%N then [backslash; "n"%char]
  else if (n =? 13)%N then [backslash; "r"%char]
  else if is_printable c then [c]
  else [backslash; "x"%char; hex_digit (n / 16); hex_digit (n mod 16)].

Definition py_repr (s : string) : string :=
  let quote := if has_char "'" s && negb (has_char dquote s) then dquote else "'"%char in
  text (quote :: flat_map (repr_char quote) (chars s) ++ [quote]).

(** [html.escape(s, quote=False)] *)
Definition html_escape_char (c : ascii) : list ascii :=
  if Ascii.eqb c "&" then chars "&amp;"
  else if Ascii.eqb c "<" then chars "&lt;"
  else if Ascii.eqb c ">" then chars "&gt;"
  else [c].

Definition html_escape (s : string) : string :=
  text (flat_map html_escape_char (chars s)).

(** [format % args] for the conversions [%s] and [%d], the arguments
    already rendered. *)
Fixpoint percent_format (format : list ascii) (args : list string) : list ascii :=
  match format with
  | p :: rest =>
      if Ascii.eqb p "%" then
        match rest, args with
        | k :: rest', a :: args' =>
            if Ascii.eqb k "s" || Ascii.eqb k "d"
            then chars a ++ percent_format rest' args'
            else p :: percent_format rest args
        | _, _ => p :: percent_format rest args
        end
      else p :: percent_format rest args
  | [] => []
  end.

(** ["Unsupported method (%r)" % method] *)
Definition unsupported_method (method : string) : string :=
  "Unsupported method (" +:+ py_repr method +:+ ")".

(** ** The handler object

    The lines of a response head, as the library buffers them, and what
    is written to the connection. *)

Inductive header_line : Type :=
| StatusLine (protocol : string) (code : Z) (message : string)
| Header (keyword value : string)
| EndHeaders.

Inductive wire_item : Type :=
| Head (line : header_line)
| Data (b : bytes).

(** The bytes of a buffered line: ["%s %d %s\r\n"], ["%s: %s\r\n"] and
    ["\r\n"], encoded as latin-1. *)
Definition crlf : string := text [CR; LF].

Definition encode_line (l : header_line) : bytes :=
  match l with
  | StatusLine protocol code message =>
      encode_latin1 (protocol +:+ " " +:+ py_str code +:+ " " +:+ message +:+ crlf)
  | Header keyword v => encode_latin1 (keyword +:+ ": " +:+ v +:+ crlf)
  | EndHeaders => encode_latin1 crlf
  end.

Definition wire_bytes (items : list wire_item) : bytes :=
  flat_map (fun i => match i with Head l => encode_line l | Data b => b end) items.

(** The attributes of [self]: those [parse_request] sets from the
    request line, the header buffer, the connection and, with them, the
    error stream of the process. *)
Record handler : Type := {
  requestline : string;
  command : string;
  path : string;
  _headers_buffer : list header_line;
  close_connection : bool;
  wfile : list wire_item;
  stderr : list string
}.

(** A method is a state transformer on [self]. *)
Definition M (A : Type) : Type := handler -> A * handler.

#[global] Instance M_ret : MRet M := fun A (a : A) h => (a, h).
#[global] Instance M_bind : MBind M :=
  fun A B (f : A -> M B) (m : M A) h => let '(a, h') := m h in f a h'.

Definition get_self : M handler := fun h => (h, h).
Definition exec {A : Type} (m : M A) (h : handler) : handler := snd (m h).

Definition buffer_append (l : header_line) : M unit := fun h =>
  (tt, {| requestline := requestline h; command := command h; path := path h;
          _headers_buffer := _headers_buffer h ++ [l];
          close_connection := close_connection h;
          wfile := wfile h; stderr := stderr h |}).

Definition set_close_connection (b : bool) : M unit := fun h =>
  (tt, {| requestline := requestline h; command := command h; path := path h;
          _headers_buffer := _headers_buffer h;
          close_connection := b;
          wfile := wfile h; stderr := stderr h |}).

(** [self.wfile.write(b)] *)
Definition wfile_write (b : bytes) : M unit := fun h =>
  (tt, {| requestline := requestline h; command := command h; path := path h;
          _headers_buffer := _headers_buffer h;
          close_connection := close_connection h;
          wfile := wfile h ++ [Data b]; stderr := stderr h |}).

(** [sys.stderr.write] of one log message. *)
Definition stderr_write (line : string) : M unit := fun h =>
  (tt, {| requestline := requestline h; command := command h; path := path h;
          _headers_buffer := _headers_buffer h;
          close_connection := close_connection h;
          wfile := wfile h; stderr := stderr h ++ [line] |}).

(** ** [http.server.BaseHTTPRequestHandler]

    The methods the handler inherits.  The requests of the embedding are
    HTTP/1.x requests, so the tests [request_version != 'HTTP/0.9'] of
    [send_response_only], [send_header] and [end_headers] hold and are
    left out.  [log_message] is the method a subclass may override;
    [now] is what [date_time_string()] returns while the request is
    handled. *)

Module BaseHTTPRequestHandler.
Section Methods.

Variable rt : runtime.
Variable now : string.
Variable log_message : string -> list string -> M unit.

Definition protocol_version : string := "HTTP/1.0".
Definition error_content_type : string := "text/html;charset=utf-8".

Definition log_request (code : Z) : M unit :=
  h ← get_self;
  log_message (text (dquote :: chars "%s" ++ dquote :: chars " %s %s"))
              [requestline h; py_str code; "-"].

Definition log_error (format : string) (args : list string) : M unit :=
  log_message format args.

(** The short message of [code] in [responses], [''] without a row. *)
Definition default_message (code : Z) : string :=
  match responses rt code with Some (short, _) => short | None => "" end.

Definition send_response_only (code : Z) (message : option string) : M unit :=
  let message :=
    match message with
    | Some m => m
    | None => default_message code
    end in
  buffer_append (StatusLine protocol_version code message).

Definition send_header (keyword v : string) : M unit :=
  buffer_append (Header keyword v) ;;
  if String.eqb (lower keyword) "connection" then
    if String.eqb (lower v) "close" then set_close_connection true
    else if String.eqb (lower v) "keep-alive" then set_close_connection false
    else mret tt
  else mret tt.

Definition flush_headers : M unit := fun h =>
  (tt, {| requestline := requestline h; command := command h; path := path h;
          _headers_buffer := [];
          close_connection := close_connection h;
          wfile := wfile h ++ map Head (_headers_buffer h); stderr := stderr h |}).

Definition end_headers : M unit :=
  buffer_append EndHeaders ;; flush_headers.

Definition send_response (code : Z) (message : option string) : M unit :=
  log_request code ;;
  send_response_only code message ;;
  send_header "Server" (version_string rt) ;;
  send_header "Date" now.

Definition send_error (code : Z) (message explain : option string) : M unit :=
  let short_long :=
    match responses rt code with Some sl => sl | None => ("???", "???")%string end in
  let message := match message with Some m => m | None => fst short_long end in
  let explain := match explain with Some e => e | None => snd short_long end in
  log_error "code %d, message %s" [py_str code; message] ;;
  send_response code (Some message) ;;
  send_header "Connection" "close" ;;
  let body :=
    if (200 <=? code) && negb ((code =? 204) || (code =? 205) || (code =? 304))
    then Some (encode_utf8 (error_message_format rt code (html_escape message)
                                                 (html_escape explain)))
    else None in
  match body with
  | Some b =>
      send_header "Content-Type" error_content_type ;;
      send_header "Content-Length" (py_str (Z.of_nat (length b)))
  | None => mret tt
  end ;;
  end_headers ;;
  h ← get_self;
  match body with
  | Some ((_ :: _) as b) =>
      if String.eqb (command h) "HEAD" then mret tt else wfile_write b
  | _ => mret tt
  end.

(** The dispatch of [handle_one_request] once [parse_request] has
    succeeded; [getattr] looks [mname] up on the handler's class.  The
    [self.wfile.flush()] that follows the method adds nothing to what
    was written. *)
Definition handle_one_request (getattr : string -> option (M unit)) : M unit :=
  h ← get_self;
  let mname := ("do_" +:+ command h)%string in
  match getattr mname with
  | None => send_error 501 (Some (unsupported_method (command h))) None
  | Some method => method
  end.

End Methods.

(** The inherited [log_message]: one line on [sys.stderr], of which the
    embedding keeps the message [format % args]. *)
Definition log_message (format : string) (args : list string) : M unit :=
  stderr_write (text (percent_format (chars format) args)).

End BaseHTTPRequestHandler.

(** ** [class Handler(BaseHTTPRequestHandler)] *)

Module Handler.
Section Methods.

Variable rt : runtime.
Variable now : string.

(** [def log_message(self, format, *args): return] *)
Definition log_message (format : string) (args : list string) : M unit :=
  mret tt.

(** The methods below reach [log_message] through [self]:
    [self_log_message] is the method [self] resolves it to. *)
Section Self.

Variable self_log_message : string -> list string -> M unit.

Definition send_response := BaseHTTPRequestHandler.send_response rt now self_log_message.
Definition send_header := BaseHTTPRequestHandler.send_header.
Definition end_headers := BaseHTTPRequestHandler.end_headers.

Definition _send_json (status_code : Z) (payload : value) : M unit :=
  let body := encode_utf8 (dumps payload) in
  send_response status_code None ;;
  send_header "Content-Type" "application/json" ;;
  send_header "Content-Length" (py_str (Z.of_nat (length body))) ;;
  end_headers ;;
  wfile_write body.

Definition do_GET : M unit :=
  self ← get_self;
  if String.eqb (path self) "/health"
  then _send_json 200 (VDict [("status", VStr "ok")])
  else _send_json 404 (VDict [("error", VStr "not_found")]).

(** The attributes named [do_...] of the class: [do_GET] is the
    only one, the base classes define none. *)
Definition getattr (mname : string) : option (M unit) :=
  if String.eqb mname "do_GET" then Some do_GET else None.

End Self.

(** [handle_one_request] on an instance of [Handler]. *)
Definition handle_one_request : M unit :=
  BaseHTTPRequestHandler.handle_one_request rt now log_message (getattr log_message).

End Methods.
End Handler.

(** ** Requests, responses and the server loop *)

(** A request the library has parsed: the values [parse_request] gives
    to [self.requestline], [self.command] and [self.path]. *)
Record request : Type := {
  req_line : string;
  req_method : string;
  req_path : string
}.

Definition GET (target : string) : request :=
  {| req_line := "GET " +:+ target +:+ " HTTP/1.1"; req_method := "GET"; req_path := target |}.

(** The handler object of a connection, after [parse_request]. *)
Definition setup (r : request) (err : list string) : handler :=
  {| requestline := req_line r; command := req_method r; path := req_path r;
     _headers_buffer := []; close_connection := true; wfile := []; stderr := err |}.

(** One request handled by [Handler] at clock reading [now]. *)
Definition handle (rt : runtime) (now : string) (r : request) (err : list string) : handler :=
  exec (Handler.handle_one_request rt now) (setup r err).

(** The response a client reads from the connection: status line,
    headers up to the empty line, and the rest as the body. *)
Record response : Type := {
  status : Z;
  reason : string;
  headers : list (string * string);
  body : bytes
}.

Fixpoint read_body (items : list wire_item) : option bytes :=
  match items with
  | [] => Some []
  | Data b :: rest =>
      match read_body rest with Some b' => Some (b ++ b') | None => None end
  | Head _ :: _ => None
  end.

Fixpoint read_headers (items : list wire_item) (acc : list (string * string))
  : option (list (string * string) * bytes) :=
  match items with
  | Head (Header k v) :: rest => read_headers rest (acc ++ [(k, v)])
  | Head EndHeaders :: rest =>
      match read_body rest with Some b => Some (acc, b) | None => None end
  | _ => None
  end.

Definition read_response (items : list wire_item) : option response :=
  match items with
  | Head (StatusLine _ code message) :: rest =>
      match read_headers rest [] with
      | Some (hs, b) => Some {| status := code; reason := message; headers := hs; body := b |}
      | None => None
      end
  | _ => None
  end.

(** The first header of that name, names compared without case. *)
Definition get_header (name : string) (r : response) : option string :=
  match find (fun kv => String.eqb (lower (fst kv)) (lower name)) (headers r) with
  | Some kv => Some (snd kv)
  | None => None
  end.

(** What the client of request [r] receives. *)
Definition respond (rt : runtime) (now : string) (r : request) : option response :=
  read_response (wfile (handle rt now r [])).

(** The response of the specification's data model: status code, body
    and the headers [Content-Type] and [Content-Length]. *)
Record spec_response : Type := {
  status_code : Z;
  content_type : option string;
  content_length : option string;
  json_body : bytes
}.

Definition spec_view (r : response) : spec_response :=
  {| status_code := status r;
     content_type := get_header "Content-Type" r;
     content_length := get_header "Content-Length" r;
     json_body := body r |}.

(** The process: its error stream and, per connection served, what was
    written to it. *)
Record process : Type := {
  log : list string;
  served : list (list wire_item)
}.

Definition start : process := {| log := []; served := [] |}.

(** [serve_forever] over the connections that arrive, each with the
    clock reading of its handling: a fresh [Handler] per connection. *)
Fixpoint serve_forever (rt : runtime) (incoming : list (string * request)) (p : process)
  : process :=
  match incoming with
  | [] => p
  | (now, r) :: rest =>
      let h := handle rt now r (log p) in
      serve_forever rt rest {| log := stderr h; served := served p ++ [wfile h] |}
  end.

(** What a server that has served [past] writes to the connection of
    request [r], handled at [now], and the response read from it. *)
Definition answer_wire (rt : runtime) (past : list (string * request)) (now : string)
  (r : request) : list wire_item :=
  default [] (last (served (serve_forever rt (past ++ [(now, r)]) start))).

Definition answer (rt : runtime) (past : list (string * request)) (now : string) (r : request)
  : option response :=
  read_response (answer_wire rt past now r).

(** The lines and data of a response, its [Date] header left out. *)
Definition is_date_header (i : wire_item) : bool :=
  match i with
  | Head (Header keyword _) => String.eqb (lower keyword) "date"
  | _ => false
  end.

Definition drop_date (items : list wire_item) : list wire_item :=
  List.filter (fun i => negb (is_date_header i)) items.

(** ** [__main__] *)

(** [os.getenv(key, default)] *)
Definition getenv (environ : gmap string string) (key default : string) : string :=
  match environ !! key with
  | Some v => v
  | None => default
  end.

Inductive exception : Type :=
| ValueError.

(** How the script ends: an exception that nothing catches, or
    [HTTPServer(server_address, Handler).serve_forever()]. *)
Inductive startup : Type :=
| Raised (e : exception)
| ServeForever (server_address : string * Z).

Definition main (rt : runtime) (environ : gmap string string) : startup :=
  match py_int (int_max_str_digits rt) (getenv environ "PORT" "8081") with
  | None => Raised ValueError
  | Some port => ServeForever ("0.0.0.0"%string, port)
  end.

(** ** A sample runtime

    CPython 3.12: the rows of the [responses] table for the codes this
    server sends, and [DEFAULT_ERROR_MESSAGE]. *)

Definition DEFAULT_ERROR_MESSAGE (code : Z) (message explain : string) : string :=
  let nl := text [LF] in
  let q := text [dquote] in
  "<!DOCTYPE HTML>" +:+ nl +:+
  "<html lang=" +:+ q +:+ "en" +:+ q +:+ ">" +:+ nl +:+
  "    <head>" +:+ nl +:+
  "        <meta charset=" +:+ q +:+ "utf-8" +:+ q +:+ ">" +:+ nl +:+
  "        <title>Error response</title>" +:+ nl +:+
  "    </head>" +:+ nl +:+
  "    <body>" +:+ nl +:+
  "        <h1>Error response</h1>" +:+ nl +:+
  "        <p>Error code: " +:+ py_str code +:+ "</p>" +:+ nl +:+
  "        <p>Message: " +:+ message +:+ ".</p>" +:+ nl +:+
  "        <p>Error code explanation: " +:+ py_str code +:+ " - " +:+ explain +:+ ".</p>" +:+ nl +:+
  "    </body>" +:+ nl +:+
  "</html>" +:+ nl.

Definition cpython : runtime :=
  {| version_string := "BaseHTTP/0.6 Python/3.12.3";
     responses := fun code =>
       if code =? 200 then Some ("OK", "Request fulfilled, document follows")%string
       else if code =? 404 then Some ("Not Found", "Nothing matches the given URI")%string
       else if code =? 501
       then Some ("Not Implemented", "Server does not support this operation")%string
       else None;
     error_message_format := DEFAULT_ERROR_MESSAGE;
     int_max_str_digits := 4300 |}.

Definition epoch : string := "Thu, 01 Jan 1970 00:00:00 GMT".

Definition POST (target : string) : request :=
  {| req_line := "POST " +:+ target +:+ " HTTP/1.1"; req_method := "POST"; req_path := target |}.

(** ** Vocabulary of the properties *)

(** The value of a run of decimal digits read after [acc]. *)
Definition digits_value (ds : list ascii) (acc : Z) : Z :=
  fold_left (fun a c => 10 * a + digit_value c) ds acc.

(** What [_send_json] writes to a fresh connection. *)
Definition json_wire (rt : runtime) (now : string) (code : Z) (payload : value)
  : list wire_item :=
  let body := encode_utf8 (dumps payload) in
  [Head (StatusLine "HTTP/1.0" code (BaseHTTPRequestHandler.default_message rt code));
   Head (Header "Server" (version_string rt));
   Head (Header "Date" now);
   Head (Header "Content-Type" "application/json");
   Head (Header "Content-Length" (py_str (Z.of_nat (length body))));
   Head EndHeaders;
   Data body].

(** The page of the library's answer to a method the class has no
    [do_] attribute for. *)
Definition unsupported_method_page (rt : runtime) (method : string) : bytes :=
  let explain :=
    snd (match responses rt 501 with Some sl => sl | None => ("???", "???")%string end) in
  encode_utf8 (error_message_format rt 501 (html_escape (unsupported_method method))
                                    (html_escape explain)).

(** The client of [r] receives status [code] and a body that
    deserialises to [document]. *)
Definition answers (rt : runtime) (now : string) (r : request) (code : Z) (document : json)
  : Prop :=
  exists resp, respond rt now r = Some resp /\ status resp = code /\
               deserialize (body resp) = Some document.

(** [Content-Type: application/json], and a [Content-Length] that reads
    as the number of bytes of the body. *)
Definition json_headers (resp : response) : Prop :=
  get_header "Content-Type" resp = Some "application/json"%string /\
  exists v, get_header "Content-Length" resp = Some v /\
            py_int 0 v = Some (Z.of_nat (length (body resp))).

Definition health_document : json := JObject [("status", JString "ok")].
Definition not_found_document : json := JObject [("error", JString "not_found")].

(** The head of that answer. *)
Definition error_head (rt : runtime) (now method : string) : list wire_item :=
  [Head (StatusLine "HTTP/1.0" 501 (unsupported_method method));
   Head (Header "Server" (version_string rt));
   Head (Header "Date" now);
   Head (Header "Connection" "close");
   Head (Header "Content-Type" "text/html;charset=utf-8");
   Head (Header "Content-Length"
           (py_str (Z.of_nat (length (unsupported_method_page rt method)))));
   Head EndHeaders].

(** The responses a client can read: the one [_send_json] builds and
    the library's answer to a method without [do_] attribute. *)
Definition json_response (rt : runtime) (now : string) (code : Z) (payload : value)
  : response :=
  let body := encode_utf8 (dumps payload) in
  {| status := code;
     reason := BaseHTTPRequestHandler.default_message rt code;
     headers := [("Server", version_string rt); ("Date", now);
                 ("Content-Type", "application/json");
                 ("Content-Length", py_str (Z.of_nat (length body)))]%string;
     body := body |}.

Definition not_implemented_response (rt : runtime) (now method : string) : response :=
  let page := unsupported_method_page rt method in
  {| status := 501;
     reason := unsupported_method method;
     headers := [("Server", version_string rt); ("Date", now);
                 ("Connection", "close");
                 ("Content-Type", "text/html;charset=utf-8");
                 ("Content-Length", py_str (Z.of_nat (length page)))]%string;
     body := if String.eqb method "HEAD" then [] else page |}.

Definition health_payload : value := VDict [("status", VStr "ok")].
Definition not_found_payload : value := VDict [("error", VStr "not_found")].

(** ** Vocabulary of the further properties *)

(** The text of a [str] as a JSON document carries it: UTF-8. *)
Definition utf8_text (s : string) : string :=
  text (flat_map utf8_of_char (chars s)).

(** The JSON document a payload stands for. *)
Fixpoint to_json (v : value) : json :=
  match v with
  | VNone => JNull
  | VBool b => JBool b
  | VInt n => JNumber (py_str n)
  | VStr s => JString (utf8_text s)
  | VList items => JArray (map to_json items)
  | VDict items => JObject (map (fun kv => (utf8_text (fst kv), to_json (snd kv))) items)
  end.

(** The calls of the parser that reading a payload back takes, one
    after the other. *)
Fixpoint cost (v : value) : nat :=
  match v with
  | VList items => S (fold_right (fun x n => S (cost x + n)) O items)
  | VDict items => S (fold_right (fun kv n => S (cost (snd kv) + n)) O items)
  | _ => 1
  end.

(** What may follow a number: the end of the text, or a character that
    does not continue the literal. *)
Definition number_ends (rest : list ascii) : bool :=
  match rest with
  | [] => true
  | c :: _ =>
      negb (is_digit c || Ascii.eqb c "." || Ascii.eqb c "e" || Ascii.eqb c "E")
  end.

(** The printable characters of ASCII, from space to tilde. *)
Definition is_plain (c : ascii) : bool := ((32 <=? ord c) && (ord c <=? 126))%N.

(** Reading a payload back: with enough fuel, and in front of anything
    that ends a number, the parser takes what [dumps] wrote and gives
    the document of the payload. *)
Definition reads_back (v : value) : Prop :=
  forall fuel rest,
    (cost v <= fuel)%nat -> number_ends rest = true ->
    parse_value fuel (chars (dumps v) ++ rest) = Some (to_json v, rest).

(** One member of a [dict], as [dumps] writes it and as a document. *)
Definition dumps_member (kv : string * value) : string :=
  encode_basestring_ascii (fst kv) +:+ ": " +:+ dumps (snd kv).

Definition member_to_json (kv : string * value) : string * json :=
  (utf8_text (fst kv), to_json (snd kv)).

(** The response read from what [_send_json] writes to a fresh
    connection. *)
Definition send_json_reply (rt : runtime) (now : string) (status_code : Z) (payload : value)
  (r : request) (err : list string) : option response :=
  read_response
    (wfile (exec (Handler._send_json rt now Handler.log_message status_code payload)
                 (setup r err))).

(** * Properties *)

(** ** Sample evaluations *)

Example py_int_port : py_int 4300 "9999" = Some 9999.
Proof. reflexivity. Qed.

Example py_int_spaces_sign : py_int 4300 "  +8_081 " = Some 8081.
Proof. reflexivity. Qed.

Example py_int_empty : py_int 4300 "" = None.
Proof. reflexivity. Qed.

Example py_int_word : py_int 4300 "http" = None.
Proof. reflexivity. Qed.

Example py_int_double_underscore : py_int 4300 "8__1" = None.
Proof. reflexivity. Qed.

Example py_int_trailing_underscore : py_int 4300 "81_" = None.
Proof. reflexivity. Qed.

Example py_int_float : py_int 4300 "80.0" = None.
Proof. reflexivity. Qed.

Example py_str_16 : py_str 16 = "16"%string.
Proof. reflexivity. Qed.

Example py_str_0 : py_str 0 = "0"%string.
Proof. reflexivity. Qed.

Example py_str_neg : py_str (-305) = "-305"%string.
Proof. reflexivity. Qed.

Example dumps_health :
  chars (dumps (VDict [("status", VStr "ok")]))
  = ["{"; dquote; "s"; "t"; "a"; "t"; "u"; "s"; dquote; ":"; " ";
     dquote; "o"; "k"; dquote; "}"]%char.
Proof. reflexivity. Qed.

Example dumps_nested :
  deserialize (encode_utf8 (dumps (VDict [("a", VList [VInt (-12); VNone; VBool true]);
                                          ("b", VStr "x/y"); ("c", VDict [])])))
  = Some (JObject [("a", JArray [JNumber "-12"; JNull; JBool true]);
                   ("b", JString "x/y"); ("c", JObject [])]).
Proof. vm_compute. reflexivity. Qed.

Example deserialize_escapes :
  deserialize (encode_utf8 (dumps (VStr (text [dquote; backslash; LF; chr 233]))))
  = Some (JString (text [dquote; backslash; LF; chr 195; chr 169])).
Proof. vm_compute. reflexivity. Qed.

Example deserialize_exponent :
  deserialize (encode_latin1 " [1.5e-3, 0, -0.25E+7] ")
  = Some (JArray [JNumber "1.5e-3"; JNumber "0"; JNumber "-0.25E+7"]).
Proof. vm_compute. reflexivity. Qed.

Example invalid_leading_zero : valid_json (encode_latin1 "01") = false.
Proof. vm_compute. reflexivity. Qed.

Example invalid_trailing_comma : valid_json (encode_latin1 "[1,]") = false.
Proof. vm_compute. reflexivity. Qed.

Example invalid_encoding : valid_json (encode_latin1 (text [dquote; chr 233; dquote])) = false.
Proof. vm_compute. reflexivity. Qed.

Example valid_encoding : valid_json (encode_utf8 (text [dquote; chr 233; dquote])) = true.
Proof. vm_compute. reflexivity. Qed.

Example invalid_empty : valid_json [] = false.
Proof. vm_compute. reflexivity. Qed.

Example invalid_markup : valid_json (encode_latin1 "<!DOCTYPE HTML>") = false.
Proof. vm_compute. reflexivity. Qed.

(** ** Decimal literals: [int(str(n)) = n] *)

Lemma chars_text (cs : list ascii) : chars (text cs) = cs.
Proof. apply list_ascii_of_string_of_list_ascii. Qed.

Lemma digit_char_facts (d : N) :
  (d < 10)%N ->
  is_digit (digit_char d) = true /\ digit_value (digit_char d) = Z.of_N d.
Proof.
  intros Hd.
  assert (Hcases : In d [0; 1; 2; 3; 4; 5; 6; 7; 8; 9]%N).
  { simpl. lia. }
  simpl in Hcases.
  repeat (destruct Hcases as [<- | Hcases]; [split; reflexivity |]).
  contradiction.
Qed.

Lemma scan_digits_run (ds : list ascii) :
  Forall (fun c => is_digit c = true) ds ->
  forall after acc count,
    scan_digits ds after acc count
    = Some (digits_value ds acc, (count + length ds)%nat, []).
Proof.
  induction 1 as [| c ds Hc _ IH]; intros after acc count; simpl.
  - by rewrite Nat.add_0_r.
  - rewrite Hc, IH. do 3 f_equal. lia.
Qed.

Lemma decimal_digits_acc (fuel : nat) :
  forall n acc, decimal_digits fuel n acc = decimal_digits fuel n [] ++ acc.
Proof.
  induction fuel as [| fuel IH]; intros n acc; simpl; [done |].
  destruct (n / 10 =? 0)%N; [done |].
  rewrite (IH _ (_ :: acc)), (IH _ [_]). by rewrite <- app_assoc.
Qed.

Lemma decimal_digits_step (fuel : nat) (n : N) :
  decimal_digits (S fuel) n []
  = if (n / 10 =? 0)%N then [digit_char (n mod 10)]
    else decimal_digits fuel (n / 10) [] ++ [digit_char (n mod 10)].
Proof.
  simpl. destruct (n / 10 =? 0)%N; [done |]. apply decimal_digits_acc.
Qed.

Lemma digits_value_snoc (ds : list ascii) (c : ascii) (acc : Z) :
  digits_value (ds ++ [c]) acc = 10 * digits_value ds acc + digit_value c.
Proof. unfold digits_value. by rewrite fold_left_app. Qed.

Lemma decimal_digits_sound (fuel : nat) :
  forall n, (n < 10 ^ N.of_nat (S fuel))%N ->
    let ds := decimal_digits (S fuel) n [] in
    Forall (fun c => is_digit c = true) ds /\ ds <> [] /\ digits_value ds 0 = Z.of_N n.
Proof.
  induction fuel as [| fuel IH]; intros n Hn; cbv zeta; rewrite decimal_digits_step.
  - assert (n / 10 = 0)%N as Hq.
    { apply N.div_small. change (10 ^ N.of_nat 1)%N with 10%N in Hn. lia. }
    rewrite Hq. simpl N.eqb. cbv iota.
    destruct (digit_char_facts (n mod 10)) as (Hd & Hv).
    { apply N.mod_lt. lia. }
    split; [by constructor |]. split; [done |].
    unfold digits_value. simpl. rewrite Hv.
    rewrite N.mod_small; [lia |]. change (10 ^ N.of_nat 1)%N with 10%N in Hn. lia.
  - destruct (digit_char_facts (n mod 10)) as (Hd & Hv).
    { apply N.mod_lt. lia. }
    destruct (N.eqb_spec (n / 10) 0) as [Hq | Hq].
    + split; [by constructor |]. split; [done |].
      unfold digits_value. simpl. rewrite Hv.
      pose proof (N.div_mod n 10 ltac:(lia)). lia.
    + destruct (IH (n / 10)%N) as (Hall & Hne & Hval).
      { apply N.Div0.div_lt_upper_bound.
        rewrite <- N.pow_succ_r'. by rewrite <- Nat2N.inj_succ. }
      split; [| split].
      * apply Forall_app. split; [done | by constructor].
      * by destruct (decimal_digits (S fuel) (n / 10) []).
      * rewrite digits_value_snoc, Hval, Hv.
        pose proof (N.div_mod n 10 ltac:(lia)). lia.
Qed.

Lemma decimal_sound (n : N) :
  Forall (fun c => is_digit c = true) (decimal n) /\ decimal n <> [] /\
  digits_value (decimal n) 0 = Z.of_N n.
Proof.
  apply decimal_digits_sound.
  destruct (N.eq_dec n 0%N) as [-> | Hn]; [done |].
  apply N.lt_le_trans with (2 ^ N.succ (N.log2 n))%N.
  - apply N.log2_spec. lia.
  - rewrite Nat2N.inj_succ, N2Nat.id. apply N.pow_le_mono_l. lia.
Qed.

Lemma digit_not_space_or_sign (c : ascii) :
  is_digit c = true ->
  is_space c = false /\ Ascii.eqb c "-" = false /\ Ascii.eqb c "+" = false.
Proof.
  intros Hc. split; [| split].
  - unfold is_digit in Hc. apply andb_prop in Hc as [Hlo Hhi].
    apply N.leb_le in Hlo, Hhi. unfold is_space.
    rewrite (proj2 (N.leb_gt (ord c) 13)) by lia.
    rewrite (proj2 (N.eqb_neq (ord c) 32)) by lia.
    rewrite (proj2 (N.eqb_neq (ord c) 133)) by lia.
    rewrite (proj2 (N.eqb_neq (ord c) 160)) by lia.
    by rewrite andb_false_r.
  - destruct (Ascii.eqb_spec c "-") as [-> |]; [discriminate | done].
  - destruct (Ascii.eqb_spec c "+") as [-> |]; [discriminate | done].
Qed.

Lemma too_many_digits_disabled (count : nat) : too_many_digits 0 count = false.
Proof. unfold too_many_digits. simpl. by rewrite andb_false_r. Qed.

(** [int] on a plain run of digits. *)
Lemma py_int_digits (limit : nat) (ds : list ascii) :
  Forall (fun c => is_digit c = true) ds ->
  ds <> [] ->
  too_many_digits limit (length ds) = false ->
  py_int limit (text ds) = Some (digits_value ds 0).
Proof.
  intros Hall Hne Hlimit.
  unfold py_int. rewrite chars_text.
  destruct ds as [| d ds]; [done |].
  pose proof (Forall_inv Hall) as Hd. simpl in Hd.
  destruct (digit_not_space_or_sign d Hd) as (Hsp & Hminus & Hplus).
  simpl lstrip. rewrite Hsp, Hminus, Hplus.
  rewrite (scan_digits_run _ Hall).
  change (0 + length (d :: ds))%nat with (length (d :: ds)).
  by rewrite Hlimit.
Qed.

(** [int] reads back what [str] prints, when the limit on digits is
    disabled. *)
Lemma py_int_py_str_of_N (n : N) : py_int 0 (py_str (Z.of_N n)) = Some (Z.of_N n).
Proof.
  unfold py_str. rewrite (proj2 (Z.ltb_ge _ _)) by lia. rewrite N2Z.id.
  destruct (decimal_sound n) as (Hall & Hne & Hval).
  rewrite py_int_digits by auto using too_many_digits_disabled.
  by rewrite Hval.
Qed.

Lemma py_int_py_str_length {A : Type} (l : list A) :
  py_int 0 (py_str (Z.of_nat (length l))) = Some (Z.of_nat (length l)).
Proof. rewrite <- nat_N_Z. apply py_int_py_str_of_N. Qed.

(** ** Running the handler *)

Lemma exec_get_self {A : Type} (k : handler -> M A) (h : handler) :
  exec (get_self ≫= k) h = exec (k h) h.
Proof. reflexivity. Qed.

Lemma getattr_do_name (method : string) :
  String.eqb ("do_" +:+ method) "do_GET" = String.eqb method "GET".
Proof. reflexivity. Qed.

Lemma send_json_wfile rt now code payload r err :
  wfile (exec (Handler._send_json rt now Handler.log_message code payload) (setup r err))
  = json_wire rt now code payload.
Proof. reflexivity. Qed.

Lemma do_GET_wfile rt now r err :
  wfile (exec (Handler.do_GET rt now Handler.log_message) (setup r err))
  = if String.eqb (req_path r) "/health"
    then json_wire rt now 200 (VDict [("status", VStr "ok")])
    else json_wire rt now 404 (VDict [("error", VStr "not_found")]).
Proof.
  unfold Handler.do_GET. rewrite exec_get_self.
  change (path (setup r err)) with (req_path r).
  destruct (String.eqb (req_path r) "/health"); reflexivity.
Qed.

Lemma handle_dispatch rt now r err :
  handle rt now r err
  = if String.eqb (req_method r) "GET"
    then exec (Handler.do_GET rt now Handler.log_message) (setup r err)
    else exec (BaseHTTPRequestHandler.send_error rt now Handler.log_message 501
                 (Some (unsupported_method (req_method r))) None) (setup r err).
Proof.
  unfold handle, Handler.handle_one_request, BaseHTTPRequestHandler.handle_one_request.
  rewrite exec_get_self. change (command (setup r err)) with (req_method r).
  unfold Handler.getattr. rewrite getattr_do_name.
  destruct (String.eqb (req_method r) "GET"); reflexivity.
Qed.

Lemma exec_bind {A B : Type} (m : M A) (k : A -> M B) (h : handler) :
  exec (m ≫= k) h = exec (k (m h).1) (m h).2.
Proof. unfold exec, mbind, M_bind. by destruct (m h). Qed.

Lemma send_error_run rt now r err :
  let h := exec (BaseHTTPRequestHandler.send_error rt now Handler.log_message 501
                 (Some (unsupported_method (req_method r))) None) (setup r err) in
  stderr h = err /\
  wfile h = error_head rt now (req_method r) ++
    match unsupported_method_page rt (req_method r) with
    | [] => []
    | _ :: _ =>
        if String.eqb (req_method r) "HEAD" then []
        else [Data (unsupported_method_page rt (req_method r))]
    end.
Proof.
  cbv zeta. unfold BaseHTTPRequestHandler.send_error, error_head, unsupported_method_page.
  cbv zeta.
  set (page := encode_utf8 _). clearbody page.
  destruct page as [| b page]; [split; reflexivity |].
  destruct (String.eqb_spec (req_method r) "HEAD") as [Hm | Hm].
  - destruct r as [l m p]. simpl in Hm. subst m. split; reflexivity.
  - apply String.eqb_neq in Hm.
    repeat (rewrite exec_bind; cbv beta).
    match goal with
    | |- context [String.eqb (command ?h) "HEAD"] =>
        change (command h) with (req_method r)
    end.
    rewrite Hm. split; reflexivity.
Qed.

Lemma read_json_wire rt now code payload :
  read_response (json_wire rt now code payload) = Some (json_response rt now code payload).
Proof.
  unfold json_wire, json_response, read_response. simpl.
  by rewrite app_nil_r.
Qed.

Lemma respond_GET rt now r :
  req_method r = "GET"%string ->
  respond rt now r
  = Some (if String.eqb (req_path r) "/health"
          then json_response rt now 200 health_payload
          else json_response rt now 404 not_found_payload).
Proof.
  intros Hm. unfold respond. rewrite handle_dispatch, Hm. simpl String.eqb. cbv iota.
  rewrite do_GET_wfile.
  destruct (String.eqb (req_path r) "/health"); apply read_json_wire.
Qed.

Lemma respond_other_method rt now r :
  req_method r <> "GET"%string ->
  respond rt now r = Some (not_implemented_response rt now (req_method r)).
Proof.
  intros Hm. apply String.eqb_neq in Hm.
  unfold respond. rewrite handle_dispatch, Hm.
  destruct (send_error_run rt now r []) as [_ ->].
  unfold not_implemented_response, error_head, read_response.
  destruct (unsupported_method_page rt (req_method r)) as [| b page] eqn:Hpage.
  - simpl. by destruct (String.eqb (req_method r) "HEAD").
  - destruct (String.eqb (req_method r) "HEAD"); simpl; [done |].
    by rewrite app_nil_r.
Qed.

(** What is written to the connection does not depend on the error
    stream the handler starts with. *)
Lemma handle_wfile rt now r err : wfile (handle rt now r err) = wfile (handle rt now r []).
Proof.
  rewrite !handle_dispatch.
  destruct (String.eqb (req_method r) "GET").
  - by rewrite !do_GET_wfile.
  - destruct (send_error_run rt now r err) as [_ ->].
    by destruct (send_error_run rt now r []) as [_ ->].
Qed.

Lemma handle_stderr rt now r err : stderr (handle rt now r err) = err.
Proof.
  rewrite handle_dispatch.
  destruct (String.eqb (req_method r) "GET").
  - unfold Handler.do_GET. rewrite exec_get_self.
    by destruct (String.eqb (path (setup r err)) "/health").
  - by destruct (send_error_run rt now r err) as [-> _].
Qed.

(** ** The server loop *)

Lemma serve_forever_log rt incoming :
  forall p, log (serve_forever rt incoming p) = log p.
Proof.
  induction incoming as [| [now r] incoming IH]; intros p; simpl; [done |].
  rewrite IH. simpl. apply handle_stderr.
Qed.

Lemma serve_forever_snoc rt past now r :
  forall p,
    served (serve_forever rt (past ++ [(now, r)]) p)
    = served (serve_forever rt past p)
      ++ [wfile (handle rt now r (log (serve_forever rt past p)))].
Proof.
  induction past as [| [t q] past IH]; intros p; simpl; [done |].
  by rewrite IH.
Qed.

Lemma answer_wire_handle rt past now r :
  answer_wire rt past now r = wfile (handle rt now r []).
Proof.
  unfold answer_wire.
  by rewrite serve_forever_snoc, last_snoc, handle_wfile.
Qed.

Lemma answer_respond rt past now r : answer rt past now r = respond rt now r.
Proof. unfold answer, respond. by rewrite answer_wire_handle. Qed.

(** What is written for a request, by method and path. *)
Lemma handle_wfile_cases rt now r err :
  wfile (handle rt now r err)
  = if String.eqb (req_method r) "GET"
    then if String.eqb (req_path r) "/health"
         then json_wire rt now 200 health_payload
         else json_wire rt now 404 not_found_payload
    else error_head rt now (req_method r) ++
         match unsupported_method_page rt (req_method r) with
         | [] => []
         | _ :: _ =>
             if String.eqb (req_method r) "HEAD" then []
             else [Data (unsupported_method_page rt (req_method r))]
         end.
Proof.
  rewrite handle_dispatch.
  destruct (String.eqb (req_method r) "GET").
  - apply do_GET_wfile.
  - by destruct (send_error_run rt now r err) as [_ ->].
Qed.

Lemma drop_date_json_wire rt t1 t2 code payload :
  drop_date (json_wire rt t1 code payload) = drop_date (json_wire rt t2 code payload).
Proof. reflexivity. Qed.

Lemma drop_date_error_head rt t1 t2 method :
  drop_date (error_head rt t1 method) = drop_date (error_head rt t2 method).
Proof. reflexivity. Qed.

(** ** Responses built by [_send_json] *)

Lemma send_json_response rt now code payload r err :
  read_response (wfile (exec (Handler._send_json rt now Handler.log_message code payload)
                             (setup r err)))
  = Some (json_response rt now code payload).
Proof. rewrite send_json_wfile. apply read_json_wire. Qed.

(** Whatever the status code and the payload, the head announces JSON
    and the length of the body that follows. *)
Lemma json_response_headers rt now code payload :
  json_headers (json_response rt now code payload).
Proof.
  split; [reflexivity |].
  exists (py_str (Z.of_nat (length (encode_utf8 (dumps payload))))).
  split; [reflexivity |]. apply py_int_py_str_length.
Qed.

Lemma health_body : deserialize (encode_utf8 (dumps health_payload)) = Some health_document.
Proof. vm_compute. reflexivity. Qed.

Lemma not_found_body :
  deserialize (encode_utf8 (dumps not_found_payload)) = Some not_found_document.
Proof. vm_compute. reflexivity. Qed.

Lemma GET_not_found rt now r :
  req_method r = "GET"%string -> req_path r <> "/health"%string ->
  respond rt now r = Some (json_response rt now 404 not_found_payload).
Proof.
  intros Hm Hp. rewrite (respond_GET _ _ _ Hm).
  apply String.eqb_neq in Hp. by rewrite Hp.
Qed.

(** ** The endpoint *)






Example health_with_query :
  answers cpython epoch (GET "/health?x=1") 404 not_found_document.
Proof. eexists. split; [vm_compute; reflexivity |]. split; vm_compute; reflexivity. Qed.

Example health_with_slash :
  answers cpython epoch (GET "/health/") 404 not_found_document.
Proof. eexists. split; [vm_compute; reflexivity |]. split; vm_compute; reflexivity. Qed.

Example health_extra :
  answers cpython epoch (GET "/health/extra") 404 not_found_document.
Proof. eexists. split; [vm_compute; reflexivity |]. split; vm_compute; reflexivity. Qed.

(** ** Methods other than GET *)




(** ** Headers *)




(** ** Bodies *)

(** C5, as stated, fails: [POST /health] is parsed, and the body of its
    answer is an HTML page, not a JSON text. *)
Lemma post_health_body_is_not_json :
  ~ exists resp, respond cpython epoch (POST "/health") = Some resp /\
                 valid_json (body resp) = true.
Proof.
  intros (resp & Hr & Hjson).
  rewrite respond_other_method in Hr by discriminate.
  injection Hr as <-. vm_compute in Hjson. discriminate Hjson.
Qed.

(** C5, amended. The body of the response to every GET request is a
    syntactically valid JSON text. *)
Theorem get_body_is_json rt now r :
  req_method r = "GET"%string ->
  exists resp, respond rt now r = Some resp /\ valid_json (body resp) = true.
Proof.
  intros Hm. rewrite (respond_GET _ _ _ Hm).
  destruct (String.eqb (req_path r) "/health");
    eexists; (split; [reflexivity | vm_compute; reflexivity]).
Qed.

Lemma get_body_is_json_witness :
  exists resp, respond cpython epoch (GET "/nowhere") = Some resp /\
               valid_json (body resp) = true.
Proof. apply get_body_is_json. reflexivity. Defined.

(** ** Start-up *)

Lemma py_int_default_port (limit : nat) : py_int limit "8081" = Some 8081.
Proof. reflexivity. Qed.

(** C6. When [PORT] is set to a value that [int] does not parse, the
    script ends with the [ValueError] of [int]; it does not go on to
    serve, on port 8081 or any other. *)
Theorem unparsable_port_fails rt (environ : gmap string string) (v : string) :
  environ !! "PORT"%string = Some v ->
  py_int (int_max_str_digits rt) v = None ->
  main rt environ = Raised ValueError /\
  forall address, main rt environ <> ServeForever address.
Proof.
  intros Hset Hparse. unfold main, getenv. rewrite Hset, Hparse.
  split; [reflexivity | discriminate].
Qed.

Lemma unparsable_port_fails_witness :
  main cpython {["PORT"%string := "http"%string]} = Raised ValueError /\
  forall address, main cpython {["PORT"%string := "http"%string]} <> ServeForever address.
Proof.
  apply (unparsable_port_fails cpython {["PORT"%string := "http"%string]} "http");
    reflexivity.
Defined.

Example empty_port_fails :
  main cpython {["PORT"%string := ""%string]} = Raised ValueError.
Proof. reflexivity. Qed.



Example port_unset : main cpython ∅ = ServeForever ("0.0.0.0"%string, 8081).
Proof. reflexivity. Qed.

Example port_9999_among_others :
  main cpython (<["HOME"%string := "/root"%string]> {["PORT"%string := "9999"%string]})
  = ServeForever ("0.0.0.0"%string, 9999).
Proof. reflexivity. Qed.

(** ** Statelessness and logging *)

Lemma spec_view_json rt t1 t2 code payload :
  spec_view (json_response rt t1 code payload) = spec_view (json_response rt t2 code payload).
Proof. reflexivity. Qed.

Lemma spec_view_not_implemented rt t1 t2 method :
  spec_view (not_implemented_response rt t1 method)
  = spec_view (not_implemented_response rt t2 method).
Proof. reflexivity. Qed.

(** Every request is answered, by one of the two kinds of response. *)
Lemma respond_total rt now r :
  respond rt now r
  = Some (if String.eqb (req_method r) "GET"
          then if String.eqb (req_path r) "/health"
               then json_response rt now 200 health_payload
               else json_response rt now 404 not_found_payload
          else not_implemented_response rt now (req_method r)).
Proof.
  destruct (String.eqb_spec (req_method r) "GET") as [Hm | Hm].
  - by apply respond_GET.
  - by apply respond_other_method.
Qed.

(** The response of the specification's data model (status code,
    [Content-Type], [Content-Length], body) depends on the method and
    the path alone. *)
Lemma spec_response_by_method_and_path rt past1 past2 t1 t2 r1 r2 :
  req_method r1 = req_method r2 ->
  req_path r1 = req_path r2 ->
  exists resp1 resp2,
    answer rt past1 t1 r1 = Some resp1 /\
    answer rt past2 t2 r2 = Some resp2 /\
    spec_view resp1 = spec_view resp2.
Proof.
  intros Hm Hp. rewrite !answer_respond, !respond_total, Hm, Hp.
  do 2 eexists. split; [reflexivity |]. split; [reflexivity |].
  destruct (String.eqb (req_method r2) "GET"); [| apply spec_view_not_implemented].
  destruct (String.eqb (req_path r2) "/health"); apply spec_view_json.
Qed.




Example date_header_follows_clock :
  (respond cpython epoch (GET "/health") ≫= get_header "Date") = Some epoch /\
  (respond cpython "Thu, 01 Jan 1970 00:00:01 GMT" (GET "/health") ≫= get_header "Date")
  = Some "Thu, 01 Jan 1970 00:00:01 GMT"%string.
Proof. split; vm_compute; reflexivity. Qed.

(** C9. Handling a request writes nothing to the error stream: the
    override of [log_message] returns at once, for the requests the
    handler answers and for those the base class rejects, so the log of
    the process stays what it was, whatever the traffic. *)
Theorem no_access_log rt :
  (forall now r err, stderr (handle rt now r err) = err) /\
  (forall incoming p, log (serve_forever rt incoming p) = log p).
Proof.
  split.
  - intros now r err. apply handle_stderr.
  - intros incoming p. apply serve_forever_log.
Qed.

(** Without the override the same request would be logged: the
    inherited [log_message] writes the line of [log_request]. *)
Example inherited_log_message_logs :
  stderr (exec (BaseHTTPRequestHandler.handle_one_request cpython epoch
                  BaseHTTPRequestHandler.log_message
                  (Handler.getattr cpython epoch BaseHTTPRequestHandler.log_message))
               (setup (GET "/health") []))
  = [text (dquote :: chars "GET /health HTTP/1.1" ++ dquote :: chars " 200 -")].
Proof. vm_compute. reflexivity. Qed.

(** ** The bytes on the wire *)

Example health_on_the_wire :
  wire_bytes (wfile (handle cpython epoch (GET "/health") []))
  = encode_latin1
      ("HTTP/1.0 200 OK" +:+ crlf +:+
       "Server: BaseHTTP/0.6 Python/3.12.3" +:+ crlf +:+
       "Date: Thu, 01 Jan 1970 00:00:00 GMT" +:+ crlf +:+
       "Content-Type: application/json" +:+ crlf +:+
       "Content-Length: 16" +:+ crlf +:+
       crlf +:+
       dumps health_payload).
Proof. vm_compute. reflexivity. Qed.

Example not_implemented_on_the_wire :
  wire_bytes (wfile (handle cpython epoch (POST "/health") []))
  = encode_latin1
      ("HTTP/1.0 501 Unsupported method ('POST')" +:+ crlf +:+
       "Server: BaseHTTP/0.6 Python/3.12.3" +:+ crlf +:+
       "Date: Thu, 01 Jan 1970 00:00:00 GMT" +:+ crlf +:+
       "Connection: close" +:+ crlf +:+
       "Content-Type: text/html;charset=utf-8" +:+ crlf +:+
       "Content-Length: 357" +:+ crlf +:+
       crlf +:+
       DEFAULT_ERROR_MESSAGE 501 "Unsupported method ('POST')"
                             "Server does not support this operation").
Proof. vm_compute. reflexivity. Qed.

Example head_has_no_body :
  option_map body (respond cpython epoch
                     {| req_line := "HEAD /health HTTP/1.1"; req_method := "HEAD";
                        req_path := "/health" |})
  = Some [].
Proof. vm_compute. reflexivity. Qed.

(** ** Reading back what [json.dumps] writes *)

Lemma chars_app (s1 s2 : string) : chars (s1 +:+ s2) = chars s1 ++ chars s2.
Proof. induction s1 as [| c s1 IH]; simpl; [done | by rewrite IH]. Qed.

Lemma string_tail_char (c : ascii) (rest acc : list ascii) :
  parse_string_tail (escape_char c ++ rest) acc
  = parse_string_tail rest (rev (utf8_of_char c) ++ acc).
Proof.
  destruct c as [[] [] [] [] [] [] [] []]; reflexivity.
Qed.

Lemma string_tail_chars (cs rest acc : list ascii) :
  parse_string_tail (flat_map escape_char cs ++ dquote :: rest) acc
  = Some (text (rev acc ++ flat_map utf8_of_char cs), rest).
Proof.
  revert acc. induction cs as [| c cs IH]; intros acc; simpl.
  - by rewrite app_nil_r.
  - rewrite <- app_assoc, string_tail_char, IH.
    by rewrite rev_app_distr, rev_involutive, <- app_assoc.
Qed.

Lemma chars_encode_basestring (s : string) :
  chars (encode_basestring_ascii s) = dquote :: flat_map escape_char (chars s) ++ [dquote].
Proof. unfold encode_basestring_ascii. apply chars_text. Qed.

Lemma take_digits_run (ds rest : list ascii) :
  Forall (fun c => is_digit c = true) ds ->
  number_ends rest = true ->
  take_digits (ds ++ rest) = (ds, rest).
Proof.
  intros Hall Hrest. induction Hall as [| d ds Hd _ IH]; simpl.
  - destruct rest as [| c rest]; [done |]. simpl in *.
    destruct (is_digit c); [discriminate | done].
  - by rewrite Hd, IH.
Qed.

Lemma digit_char_zero (d : N) :
  (0 < d < 10)%N -> Ascii.eqb (digit_char d) "0" = false.
Proof.
  intros Hd.
  assert (Hcases : In d [1; 2; 3; 4; 5; 6; 7; 8; 9]%N) by (simpl; lia).
  simpl in Hcases.
  repeat (destruct Hcases as [<- | Hcases]; [reflexivity |]).
  contradiction.
Qed.

(** The first digit of a positive number is not a zero. *)
Lemma decimal_digits_head (fuel : nat) :
  forall n, (0 < n)%N -> (n < 10 ^ N.of_nat (S fuel))%N ->
    exists d ds, decimal_digits (S fuel) n [] = digit_char d :: ds /\ (0 < d < 10)%N.
Proof.
  induction fuel as [| fuel IH]; intros n Hpos Hn; rewrite decimal_digits_step.
  - assert (n / 10 = 0)%N as Hq.
    { apply N.div_small. change (10 ^ N.of_nat 1)%N with 10%N in Hn. lia. }
    rewrite Hq. simpl N.eqb. cbv iota.
    exists (n mod 10)%N, []. split; [done |].
    change (10 ^ N.of_nat 1)%N with 10%N in Hn. rewrite N.mod_small; lia.
  - destruct (N.eqb_spec (n / 10) 0) as [Hq | Hq].
    + exists (n mod 10)%N, []. split; [done |].
      pose proof (N.div_mod n 10 ltac:(lia)) as Hdm. rewrite Hq in Hdm.
      rewrite N.mul_0_r, N.add_0_l in Hdm. rewrite <- Hdm.
      split; [done |]. rewrite Hdm. apply N.mod_lt. lia.
    + destruct (IH (n / 10)%N) as (d & ds & Heq & Hd);
        [by apply N.neq_0_lt_0 | |].
      { apply N.Div0.div_lt_upper_bound.
        rewrite <- N.pow_succ_r'. by rewrite <- Nat2N.inj_succ. }
      exists d, (ds ++ [digit_char (n mod 10)]). by rewrite Heq.
Qed.

Lemma decimal_fuel (n : N) : (n < 10 ^ N.of_nat (S (N.to_nat (N.log2 n))))%N.
Proof.
  destruct (N.eq_dec n 0%N) as [-> | Hn]; [done |].
  apply N.lt_le_trans with (2 ^ N.succ (N.log2 n))%N.
  - apply N.log2_spec. lia.
  - rewrite Nat2N.inj_succ, N2Nat.id. apply N.pow_le_mono_l. lia.
Qed.

Lemma decimal_no_leading_zero (n : N) :
  exists d ds, decimal n = d :: ds /\ is_digit d = true /\
               Ascii.eqb d "0" && negb (Nat.eqb (length ds) 0) = false.
Proof.
  destruct (decimal_sound n) as (Hall & _ & _).
  destruct (N.eq_dec n 0%N) as [-> | Hn].
  - by exists "0"%char, [].
  - destruct (decimal_digits_head (N.to_nat (N.log2 n)) n) as (d & ds & Heq & Hd);
      [lia | apply decimal_fuel |].
    fold (decimal n) in Heq. exists (digit_char d), ds.
    split; [done |]. rewrite Heq in Hall. split; [apply (Forall_inv Hall) |].
    by rewrite digit_char_zero.
Qed.

(** A number literal of [str] followed by something that ends it. *)
Lemma parse_number_decimal (n : N) (rest : list ascii) :
  number_ends rest = true ->
  parse_number (decimal n ++ rest) = Some (text (decimal n), rest).
Proof.
  intros Hrest.
  destruct (decimal_sound n) as (Hall & _ & _).
  destruct (decimal_no_leading_zero n) as (d & ds & Heq & Hd & Hzero).
  rewrite Heq in *. unfold parse_number.
  destruct (digit_not_space_or_sign d Hd) as (_ & Hminus & _).
  change ((d :: ds) ++ rest) with (d :: ds ++ rest).
  cbv beta match. rewrite Hminus. cbv beta match.
  change (d :: ds ++ rest) with ((d :: ds) ++ rest).
  rewrite take_digits_run by done. cbv beta match. rewrite Hzero.
  destruct rest as [| c rest]; [by rewrite !app_nil_r |].
  simpl in Hrest. rewrite !negb_orb in Hrest.
  destruct (Ascii.eqb c ".") eqn:Hdot; [by rewrite !andb_false_r in Hrest |].
  destruct (Ascii.eqb c "e") eqn:He; [by rewrite !andb_false_r in Hrest |].
  destruct (Ascii.eqb c "E") eqn:HE; [by rewrite !andb_false_r in Hrest |].
  simpl. by rewrite !app_nil_r.
Qed.

Lemma parse_number_py_str (n : Z) (rest : list ascii) :
  number_ends rest = true ->
  parse_number (chars (py_str n) ++ rest) = Some (py_str n, rest).
Proof.
  intros Hrest. unfold py_str. destruct (n <? 0) eqn:Hneg; rewrite chars_text.
  - set (m := Z.to_N (- n)).
    destruct (decimal_sound m) as (Hall & _ & _).
    destruct (decimal_no_leading_zero m) as (d & ds & Heq & Hd & Hzero).
    rewrite Heq in *. unfold parse_number.
    change (("-"%char :: d :: ds) ++ rest) with ("-"%char :: (d :: ds) ++ rest).
    cbv beta match. change (Ascii.eqb "-" "-") with true. cbv beta match.
    rewrite take_digits_run by done. cbv beta match. rewrite Hzero.
    destruct rest as [| c rest]; [by rewrite !app_nil_r |].
    simpl in Hrest. rewrite !negb_orb in Hrest.
    destruct (Ascii.eqb c ".") eqn:Hdot; [by rewrite !andb_false_r in Hrest |].
    destruct (Ascii.eqb c "e") eqn:He; [by rewrite !andb_false_r in Hrest |].
    destruct (Ascii.eqb c "E") eqn:HE; [by rewrite !andb_false_r in Hrest |].
    simpl. by rewrite !app_nil_r.
  - apply parse_number_decimal, Hrest.
Qed.

(** Induction on payloads, with the hypothesis on the items of a list
    and on the values of a dict. *)
Lemma value_nested_ind (P : value -> Prop) :
  P VNone ->
  (forall b, P (VBool b)) ->
  (forall n, P (VInt n)) ->
  (forall s, P (VStr s)) ->
  (forall items, Forall P items -> P (VList items)) ->
  (forall items, Forall (fun kv => P (snd kv)) items -> P (VDict items)) ->
  forall v, P v.
Proof.
  intros HNone HBool HInt HStr HList HDict.
  fix IH 1. intros [| b | n | s | items | items].
  - apply HNone.
  - apply HBool.
  - apply HInt.
  - apply HStr.
  - apply HList. induction items as [| x items IHitems]; constructor; [apply IH | apply IHitems].
  - apply HDict. induction items as [| [k x] items IHitems]; constructor;
      [apply IH | apply IHitems].
Qed.

Lemma digit_is_no_opener (c : ascii) :
  is_digit c = true ->
  is_json_ws c = false /\
  Ascii.eqb c "{" = false /\ Ascii.eqb c "[" = false /\ Ascii.eqb c dquote = false /\
  Ascii.eqb c "t" = false /\ Ascii.eqb c "f" = false /\ Ascii.eqb c "n" = false /\
  Ascii.eqb c "]" = false /\ Ascii.eqb c "}" = false.
Proof.
  intros Hc. split.
  - unfold is_digit in Hc. apply andb_prop in Hc as [Hlo Hhi].
    apply N.leb_le in Hlo, Hhi. unfold is_json_ws.
    rewrite (proj2 (N.eqb_neq (ord c) 32)) by lia.
    rewrite (proj2 (N.eqb_neq (ord c) 9)) by lia.
    rewrite (proj2 (N.eqb_neq (ord c) 10)) by lia.
    by rewrite (proj2 (N.eqb_neq (ord c) 13)) by lia.
  - repeat split;
      match goal with
      | |- Ascii.eqb c ?x = false =>
          destruct (Ascii.eqb_spec c x) as [-> |]; [discriminate Hc | done]
      end.
Qed.

(** [str(n)] starts with a minus sign or a digit. *)
Lemma py_str_head (n : Z) :
  exists c cs, chars (py_str n) = c :: cs /\ (c = "-"%char \/ is_digit c = true).
Proof.
  unfold py_str. destruct (n <? 0); rewrite chars_text.
  - eexists _, _. split; [reflexivity | by left].
  - destruct (decimal_no_leading_zero (Z.to_N n)) as (d & ds & Heq & Hd & _).
    exists d, ds. split; [done | by right].
Qed.

Lemma parse_value_string (fuel : nat) (cs : list ascii) :
  parse_value (S fuel) (dquote :: cs)
  = match parse_string_tail cs [] with
    | Some (s, rest) => Some (JString s, rest)
    | None => None
    end.
Proof. reflexivity. Qed.

Lemma parse_value_array (fuel : nat) (cs : list ascii) :
  parse_value (S fuel) ("["%char :: cs)
  = match skip_ws cs with
    | d :: rest =>
        if Ascii.eqb d "]" then Some (JArray [], rest)
        else match parse_elements fuel (d :: rest) [] with
             | Some (es, rest') => Some (JArray es, rest')
             | None => None
             end
    | [] => None
    end.
Proof. reflexivity. Qed.

Lemma parse_value_object (fuel : nat) (cs : list ascii) :
  parse_value (S fuel) ("{"%char :: cs)
  = match skip_ws cs with
    | d :: rest =>
        if Ascii.eqb d "}" then Some (JObject [], rest)
        else match parse_members fuel (d :: rest) [] with
             | Some (ms, rest') => Some (JObject ms, rest')
             | None => None
             end
    | [] => None
    end.
Proof. reflexivity. Qed.

Lemma parse_value_number (fuel : nat) (c : ascii) (cs : list ascii) :
  c = "-"%char \/ is_digit c = true ->
  parse_value (S fuel) (c :: cs)
  = match parse_number (c :: cs) with
    | Some (lit, rest) => Some (JNumber lit, rest)
    | None => None
    end.
Proof.
  intros [-> | Hc]; [reflexivity |].
  destruct (digit_is_no_opener c Hc) as (_ & H1 & H2 & H3 & H4 & H5 & H6 & _).
  cbn [parse_value]. by rewrite H1, H2, H3, H4, H5, H6.
Qed.

Lemma parse_elements_step (fuel : nat) (cs : list ascii) (acc : list json) :
  parse_elements (S fuel) cs acc
  = match parse_value fuel cs with
    | Some (v, rest) =>
        match skip_ws rest with
        | c :: rest' =>
            if Ascii.eqb c "]" then Some (rev (v :: acc), rest')
            else if Ascii.eqb c "," then parse_elements fuel (skip_ws rest') (v :: acc)
            else None
        | [] => None
        end
    | None => None
    end.
Proof. reflexivity. Qed.

Lemma parse_members_step (fuel : nat) (cs : list ascii) (acc : list (string * json)) :
  parse_members (S fuel) (dquote :: cs) acc
  = match parse_string_tail cs [] with
    | Some (k, rest) =>
        match skip_ws rest with
        | colon :: rest1 =>
            if Ascii.eqb colon ":" then
              match parse_value fuel (skip_ws rest1) with
              | Some (v, rest2) =>
                  match skip_ws rest2 with
                  | c :: rest3 =>
                      if Ascii.eqb c "}" then Some (rev ((k, v) :: acc), rest3)
                      else if Ascii.eqb c ","
                      then parse_members fuel (skip_ws rest3) ((k, v) :: acc)
                      else None
                  | [] => None
                  end
              | None => None
              end
            else None
        | [] => None
        end
    | None => None
    end.
Proof. reflexivity. Qed.

(** The first character of what [dumps] writes opens a value. *)
Lemma dumps_head (v : value) :
  exists c cs, chars (dumps v) = c :: cs /\
               is_json_ws c = false /\ Ascii.eqb c "]" = false /\ Ascii.eqb c "}" = false.
Proof.
  destruct v as [| [] | n | s | items | items];
    try (eexists _, _; split; [reflexivity | by repeat split]).
  - destruct (py_str_head n) as (c & cs & Heq & [-> | Hc]).
    + exists "-"%char, cs. by repeat split.
    + exists c, cs. destruct (digit_is_no_opener c Hc) as (? & _ & _ & _ & _ & _ & _ & ? & ?).
      by repeat split.
Qed.

Lemma skip_ws_head (c : ascii) (cs : list ascii) :
  is_json_ws c = false -> skip_ws (c :: cs) = c :: cs.
Proof. intros Hc. simpl. by rewrite Hc. Qed.

Lemma chars_join_cons (sep x y : string) (l : list string) :
  chars (join sep (x :: y :: l)) = chars x ++ chars sep ++ chars (join sep (y :: l)).
Proof.
  change (join sep (x :: y :: l)) with (x +:+ sep +:+ join sep (y :: l)).
  by rewrite !chars_app.
Qed.

(** A non-empty run of items, joined, starts as its first item. *)
Lemma join_dumps_head (x : value) (xs : list value) (rest : list ascii) :
  exists c cs, chars (join ", " (map dumps (x :: xs))) ++ rest = c :: cs /\
               is_json_ws c = false /\ Ascii.eqb c "]" = false.
Proof.
  destruct (dumps_head x) as (c & cs & Heq & Hws & Hclose & _).
  destruct xs as [| y ys].
  - exists c, (cs ++ rest). simpl. by rewrite Heq.
  - exists c, (cs ++ chars ", " ++ chars (join ", " (map dumps (y :: ys))) ++ rest).
    change (map dumps (x :: y :: ys)) with (dumps x :: dumps y :: map dumps ys).
    rewrite chars_join_cons, Heq. by rewrite <- !app_assoc.
Qed.

Lemma parse_elements_dumps (xs : list value) :
  Forall reads_back xs ->
  forall x acc fuel rest,
    reads_back x ->
    (fold_right (fun x n => S (cost x + n)) O (x :: xs) <= fuel)%nat ->
    parse_elements fuel (chars (join ", " (map dumps (x :: xs))) ++ "]"%char :: rest) acc
    = Some (rev acc ++ map to_json (x :: xs), rest).
Proof.
  induction 1 as [| y ys Hy _ IH]; intros x acc fuel rest Hx Hfuel.
  - destruct fuel as [| fuel]; [simpl in Hfuel; lia |].
    simpl in Hfuel. rewrite parse_elements_step.
    change (chars (join ", " (map dumps [x]))) with (chars (dumps x)).
    rewrite Hx by (done || lia).
    by rewrite skip_ws_head.
  - destruct fuel as [| fuel]; [simpl in Hfuel; lia |].
    cbn [fold_right] in Hfuel. rewrite parse_elements_step.
    change (map dumps (x :: y :: ys)) with (dumps x :: dumps y :: map dumps ys).
    rewrite chars_join_cons, <- !app_assoc.
    rewrite Hx by (done || lia).
    change (chars ", " ++ ?r) with (","%char :: " "%char :: r).
    rewrite skip_ws_head by done.
    change (Ascii.eqb "," "]") with false. change (Ascii.eqb "," ",") with true. cbv iota.
    change (skip_ws (" "%char :: ?r)) with (skip_ws r).
    change (dumps y :: map dumps ys) with (map dumps (y :: ys)).
    destruct (join_dumps_head y ys ("]"%char :: rest)) as (c & cs & Heq & Hws & _).
    rewrite Heq, skip_ws_head by done. rewrite <- Heq.
    rewrite IH by (done || cbn [fold_right]; lia).
    simpl. by rewrite <- app_assoc.
Qed.

Lemma chars_dumps_member (kv : string * value) :
  chars (dumps_member kv)
  = dquote :: flat_map escape_char (chars (fst kv))
    ++ dquote :: ":"%char :: " "%char :: chars (dumps (snd kv)).
Proof.
  unfold dumps_member. rewrite !chars_app, chars_encode_basestring.
  simpl. by rewrite <- app_assoc.
Qed.

(** A non-empty run of members, joined, starts with the quote of its
    first key. *)
Lemma join_members_head (x : string * value) (xs : list (string * value))
  (rest : list ascii) :
  exists cs, chars (join ", " (map dumps_member (x :: xs))) ++ rest = dquote :: cs.
Proof.
  destruct xs as [| y ys].
  - change (chars (join ", " (map dumps_member [x]))) with (chars (dumps_member x)).
    rewrite chars_dumps_member. by eexists.
  - change (map dumps_member (x :: y :: ys))
      with (dumps_member x :: dumps_member y :: map dumps_member ys).
    rewrite chars_join_cons, chars_dumps_member. by eexists.
Qed.

Lemma parse_members_dumps (xs : list (string * value)) :
  Forall (fun kv => reads_back (snd kv)) xs ->
  forall x acc fuel rest,
    reads_back (snd x) ->
    (fold_right (fun kv n => S (cost (snd kv) + n)) O (x :: xs) <= fuel)%nat ->
    parse_members fuel (chars (join ", " (map dumps_member (x :: xs))) ++ "}"%char :: rest) acc
    = Some (rev acc ++ map member_to_json (x :: xs), rest).
Proof.
  induction 1 as [| y ys Hy _ IH]; intros x acc fuel rest Hx Hfuel.
  - destruct fuel as [| fuel]; [simpl in Hfuel; lia |].
    simpl in Hfuel.
    change (chars (join ", " (map dumps_member [x]))) with (chars (dumps_member x)).
    rewrite chars_dumps_member. rewrite <- app_comm_cons, parse_members_step.
    rewrite <- app_assoc, <- !app_comm_cons, string_tail_chars.
    rewrite skip_ws_head by done.
    change (Ascii.eqb ":" ":") with true. cbv iota.
    change (skip_ws (" "%char :: ?r)) with (skip_ws r).
    destruct (dumps_head (snd x)) as (c & cs & Heq & Hws & _).
    rewrite Heq, <- app_comm_cons, skip_ws_head by done.
    rewrite app_comm_cons, <- Heq.
    rewrite Hx by (done || lia).
    by rewrite skip_ws_head.
  - destruct fuel as [| fuel]; [simpl in Hfuel; lia |].
    cbn [fold_right] in Hfuel.
    change (map dumps_member (x :: y :: ys))
      with (dumps_member x :: dumps_member y :: map dumps_member ys).
    rewrite chars_join_cons, <- !app_assoc.
    rewrite chars_dumps_member. rewrite <- app_comm_cons, parse_members_step.
    rewrite <- app_assoc, <- !app_comm_cons, string_tail_chars.
    rewrite skip_ws_head by done.
    change (Ascii.eqb ":" ":") with true. cbv iota.
    change (skip_ws (" "%char :: ?r)) with (skip_ws r).
    destruct (dumps_head (snd x)) as (c & cs & Heq & Hws & _).
    rewrite Heq, <- app_comm_cons, skip_ws_head by done.
    rewrite app_comm_cons, <- Heq.
    rewrite Hx by (done || lia).
    change (chars ", " ++ ?r) with (","%char :: " "%char :: r).
    rewrite skip_ws_head by done.
    change (Ascii.eqb "," "}") with false. change (Ascii.eqb "," ",") with true. cbv iota.
    change (skip_ws (" "%char :: ?r)) with (skip_ws r).
    change (dumps_member y :: map dumps_member ys) with (map dumps_member (y :: ys)).
    destruct (join_members_head y ys ("}"%char :: rest)) as (cs' & Heq').
    rewrite Heq', skip_ws_head by done. rewrite <- Heq'.
    rewrite IH by (done || cbn [fold_right]; lia).
    simpl. by rewrite <- app_assoc.
Qed.

(** The parser reads every payload back. *)
Lemma dumps_reads_back (v : value) : reads_back v.
Proof.
  induction v as [| b | n | s | items IH | items IH] using value_nested_ind;
    intros fuel rest Hfuel Hrest;
    (destruct fuel as [| fuel]; [simpl in Hfuel; lia |]).
  - reflexivity.
  - by destruct b.
  - destruct (py_str_head n) as (c & cs & Heq & Hc).
    change (dumps (VInt n)) with (py_str n).
    rewrite Heq, <- app_comm_cons, parse_value_number by done.
    rewrite app_comm_cons, <- Heq.
    by rewrite parse_number_py_str.
  - change (dumps (VStr s)) with (encode_basestring_ascii s).
    rewrite chars_encode_basestring, <- app_comm_cons, parse_value_string.
    rewrite <- app_assoc. change ([dquote] ++ rest) with (dquote :: rest).
    by rewrite string_tail_chars.
  - destruct items as [| x xs]; [reflexivity |].
    change (dumps (VList (x :: xs)))
      with ("[" +:+ join ", " (map dumps (x :: xs)) +:+ "]")%string.
    rewrite !chars_app. change (chars "[") with ["["%char]. change (chars "]") with ["]"%char].
    rewrite <- !app_assoc. change (["["%char] ++ ?r) with ("["%char :: r).
    change (["]"%char] ++ rest) with ("]"%char :: rest).
    rewrite parse_value_array.
    destruct (join_dumps_head x xs ("]"%char :: rest)) as (c & cs & Heq & Hws & Hclose).
    rewrite Heq, skip_ws_head, Hclose by done. rewrite <- Heq.
    rewrite (parse_elements_dumps xs); [done | by inversion IH | by inversion IH |].
    simpl in Hfuel. cbn [fold_right]. lia.
  - destruct items as [| x xs]; [reflexivity |].
    change (dumps (VDict (x :: xs)))
      with ("{" +:+ join ", " (map dumps_member (x :: xs)) +:+ "}")%string.
    rewrite !chars_app. change (chars "{") with ["{"%char]. change (chars "}") with ["}"%char].
    rewrite <- !app_assoc. change (["{"%char] ++ ?r) with ("{"%char :: r).
    change (["}"%char] ++ rest) with ("}"%char :: rest).
    rewrite parse_value_object.
    destruct (join_members_head x xs ("}"%char :: rest)) as (cs' & Heq).
    rewrite Heq, skip_ws_head by done. change (Ascii.eqb dquote "}") with false. cbv iota.
    rewrite <- Heq.
    rewrite (parse_members_dumps xs); [done | by inversion IH | by inversion IH |].
    simpl in Hfuel. cbn [fold_right]. lia.
Qed.

(** ** What [json.dumps] writes is plain ASCII *)

Lemma escape_char_plain (c : ascii) : forallb is_plain (escape_char c) = true.
Proof. destruct c as [[] [] [] [] [] [] [] []]; reflexivity. Qed.

Lemma digit_is_plain (c : ascii) : is_digit c = true -> is_plain c = true.
Proof.
  unfold is_digit, is_plain. intros Hc. apply andb_prop in Hc as [Hlo Hhi].
  apply N.leb_le in Hlo, Hhi. apply andb_true_intro. split; apply N.leb_le; lia.
Qed.

Lemma plain_is_ascii (c : ascii) : is_plain c = true -> (ord c <? 128)%N = true.
Proof.
  unfold is_plain. intros Hc. apply andb_prop in Hc as [_ Hhi].
  apply N.leb_le in Hhi. apply N.ltb_lt. lia.
Qed.

Lemma py_str_plain (n : Z) : Forall (fun c => is_plain c = true) (chars (py_str n)).
Proof.
  unfold py_str. destruct (n <? 0); rewrite chars_text; [constructor; [done |] |];
    match goal with
    | |- Forall _ (decimal ?m) =>
        destruct (decimal_sound m) as (Hall & _);
        eapply Forall_impl; [apply Hall | apply digit_is_plain]
    end.
Qed.

Lemma encode_basestring_plain (s : string) :
  Forall (fun c => is_plain c = true) (chars (encode_basestring_ascii s)).
Proof.
  rewrite chars_encode_basestring. constructor; [done |].
  apply Forall_app. split; [| by constructor].
  induction (chars s) as [| c cs IH]; simpl; [constructor |].
  apply Forall_app. split; [| done].
  apply Forall_forall. intros x Hx.
  pose proof (escape_char_plain c) as Hc. rewrite forallb_forall in Hc.
  apply Hc. by apply list_elem_of_In.
Qed.

Lemma join_plain (sep : string) (parts : list string) :
  Forall (fun c => is_plain c = true) (chars sep) ->
  Forall (fun s => Forall (fun c => is_plain c = true) (chars s)) parts ->
  Forall (fun c => is_plain c = true) (chars (join sep parts)).
Proof.
  intros Hsep. induction 1 as [| x xs Hx Hxs IH]; [constructor |].
  destruct xs as [| y ys]; [done |].
  rewrite chars_join_cons. by rewrite !Forall_app.
Qed.

Lemma dumps_plain (v : value) : Forall (fun c => is_plain c = true) (chars (dumps v)).
Proof.
  induction v as [| b | n | s | items IH | items IH] using value_nested_ind.
  - by repeat constructor.
  - destruct b; by repeat constructor.
  - apply py_str_plain.
  - apply encode_basestring_plain.
  - change (dumps (VList items)) with ("[" +:+ join ", " (map dumps items) +:+ "]")%string.
    rewrite !chars_app, !Forall_app. split; [by repeat constructor |].
    split; [| by repeat constructor].
    apply join_plain; [by repeat constructor |]. by apply Forall_map.
  - change (dumps (VDict items))
      with ("{" +:+ join ", " (map dumps_member items) +:+ "}")%string.
    rewrite !chars_app, !Forall_app. split; [by repeat constructor |].
    split; [| by repeat constructor].
    apply join_plain; [by repeat constructor |]. apply Forall_map.
    eapply Forall_impl; [apply IH |]. intros [k x] Hx.
    rewrite chars_dumps_member. constructor; [done |].
    rewrite Forall_app. split.
    + pose proof (encode_basestring_plain k) as Hk.
      rewrite chars_encode_basestring in Hk.
      apply Forall_cons in Hk as [_ Hk]. apply Forall_app in Hk as [Hk _]. done.
    + by repeat constructor.
Qed.

Lemma utf8_of_plain (cs : list ascii) :
  Forall (fun c => is_plain c = true) cs -> flat_map utf8_of_char cs = cs.
Proof.
  induction 1 as [| c cs Hc _ IH]; simpl; [done |].
  unfold utf8_of_char at 1. by rewrite (plain_is_ascii c Hc), IH.
Qed.

Lemma well_formed_plain (cs : list ascii) :
  Forall (fun c => is_plain c = true) cs -> well_formed_utf8 (map ord cs) = true.
Proof.
  induction 1 as [| c cs Hc _ IH]; simpl; [done |].
  by rewrite (plain_is_ascii c Hc).
Qed.

Lemma ascii_of_byte_of_chars (cs : list ascii) :
  map ascii_of_byte (map byte_of_ascii cs) = cs.
Proof.
  induction cs as [| c cs IH]; simpl; [done |].
  by rewrite ascii_of_byte_of_ascii, IH.
Qed.

(** Under [ensure_ascii] the body has one byte per character. *)
Lemma encode_utf8_dumps (v : value) : encode_utf8 (dumps v) = encode_latin1 (dumps v).
Proof. unfold encode_utf8, encode_latin1. by rewrite utf8_of_plain by apply dumps_plain. Qed.

(** ** Fuel *)

Lemma dumps_length (v : value) : (1 <= length (chars (dumps v)))%nat.
Proof. destruct (dumps_head v) as (c & cs & -> & _). simpl. lia. Qed.

Lemma elements_cost_bound (items : list value) :
  Forall (fun x => (cost x <= 2 * length (chars (dumps x)))%nat) items ->
  (fold_right (fun x n => S (cost x + n)) O items
   <= 2 * length (chars (join ", " (map dumps items))) + 2)%nat.
Proof.
  induction 1 as [| x xs Hx Hxs IH]; [simpl; lia |].
  destruct xs as [| y ys].
  - simpl. simpl in Hx. lia.
  - change (map dumps (x :: y :: ys)) with (dumps x :: dumps y :: map dumps ys).
    rewrite chars_join_cons, !length_app.
    change (map dumps (y :: ys)) with (dumps y :: map dumps ys) in IH.
    cbn [fold_right] in *. simpl (length (chars ", ")). lia.
Qed.

Lemma members_cost_bound (items : list (string * value)) :
  Forall (fun kv => (cost (snd kv) <= 2 * length (chars (dumps (snd kv))))%nat) items ->
  (fold_right (fun kv n => S (cost (snd kv) + n)) O items
   <= 2 * length (chars (join ", " (map dumps_member items))) + 2)%nat.
Proof.
  induction 1 as [| x xs Hx Hxs IH]; [simpl; lia |].
  assert (Hmember : (length (chars (dumps (snd x))) <= length (chars (dumps_member x)))%nat).
  { rewrite chars_dumps_member. simpl. rewrite length_app. simpl. lia. }
  destruct xs as [| y ys].
  - change (chars (join ", " (map dumps_member [x]))) with (chars (dumps_member x)).
    cbn [fold_right]. lia.
  - change (map dumps_member (x :: y :: ys))
      with (dumps_member x :: dumps_member y :: map dumps_member ys).
    rewrite chars_join_cons, !length_app.
    change (map dumps_member (y :: ys)) with (dumps_member y :: map dumps_member ys) in IH.
    cbn [fold_right] in *. simpl (length (chars ", ")). lia.
Qed.

Lemma cost_bound (v : value) : (cost v <= 2 * length (chars (dumps v)))%nat.
Proof.
  induction v as [| b | n | s | items IH | items IH] using value_nested_ind.
  - simpl. lia.
  - destruct b; simpl; lia.
  - pose proof (dumps_length (VInt n)). simpl cost. lia.
  - pose proof (dumps_length (VStr s)). simpl cost. lia.
  - pose proof (elements_cost_bound items IH) as Hb.
    change (dumps (VList items)) with ("[" +:+ join ", " (map dumps items) +:+ "]")%string.
    rewrite !chars_app, !length_app. cbn [cost]. simpl (length (chars _)) at 1 3. lia.
  - pose proof (members_cost_bound items IH) as Hb.
    change (dumps (VDict items))
      with ("{" +:+ join ", " (map dumps_member items) +:+ "}")%string.
    rewrite !chars_app, !length_app. cbn [cost]. simpl (length (chars _)) at 1 3. lia.
Qed.

(** ** The round trip *)

Lemma deserialize_dumps (v : value) : deserialize (encode_utf8 (dumps v)) = Some (to_json v).
Proof.
  rewrite encode_utf8_dumps. unfold deserialize, encode_latin1.
  rewrite ascii_of_byte_of_chars, well_formed_plain by apply dumps_plain.
  unfold parse_json_text.
  destruct (dumps_head v) as (c & cs & Heq & Hws & _).
  rewrite Heq, skip_ws_head by done. rewrite <- Heq.
  rewrite <- (app_nil_r (chars (dumps v))) at 2.
  rewrite dumps_reads_back; [done | | done].
  pose proof (cost_bound v). lia.
Qed.

(** ** Further properties of [_send_json] *)





(** ** Further properties of the handler *)





(** ** Further properties of the server loop *)


(** ** Further properties of the start-up *)

Lemma py_int_blank (limit : nat) (v : string) :
  Forall (fun c => is_space c = true) (chars v) -> py_int limit v = None.
Proof.
  intros Hblank. unfold py_int.
  assert (Hstrip : lstrip (chars v) = []).
  { induction Hblank as [| c cs Hc _ IH]; simpl; [done | by rewrite Hc]. }
  by rewrite Hstrip.
Qed.


(** X10. A [PORT] that is empty or holds white space only is set, not
    absent: the start-up fails on it instead of using 8081. *)
Theorem blank_port_fails rt (environ : gmap string string) (v : string) :
  environ !! "PORT"%string = Some v ->
  Forall (fun c => is_space c = true) (chars v) ->
  main rt environ = Raised ValueError.
Proof.
  intros Hset Hblank. unfold main, getenv. rewrite Hset.
  by rewrite py_int_blank.
Qed.

Lemma blank_port_fails_witness :
  main cpython {["PORT"%string := "  "%string]} = Raised ValueError.
Proof.
  apply (blank_port_fails cpython _ "  "); [reflexivity | by repeat constructor].
Defined.

Lemma decimal_digits_length (fuel : nat) :
  forall n acc, (length (decimal_digits fuel n acc) <= fuel + length acc)%nat.
Proof.
  induction fuel as [| fuel IH]; intros n acc; simpl; [lia |].
  destruct (n / 10 =? 0)%N; simpl; [lia |].
  specialize (IH (n / 10)%N (digit_char (n mod 10) :: acc)). simpl in IH. lia.
Qed.

(** [int] reads back [str] of a port number under any limit on digits. *)
Lemma py_int_py_str_port (limit : nat) (port : Z) :
  0 <= port <= 65535 -> py_int limit (py_str port) = Some port.
Proof.
  intros Hport. unfold py_str. rewrite (proj2 (Z.ltb_ge _ _)) by lia.
  assert (Hn : (Z.to_N port <= 65535)%N) by lia.
  rewrite <- (Z2N.id port) at 2 by lia.
  generalize dependent (Z.to_N port). clear Hport. intros n Hn.
  destruct (decimal_sound n) as (Hall & Hne & Hval).
  rewrite py_int_digits; [by rewrite Hval | done | done |].
  assert (Hlen : (length (decimal n) <= 17)%nat).
  { unfold decimal.
    pose proof (decimal_digits_length (S (N.to_nat (N.log2 n))) n []) as Hl.
    pose proof (N.log2_le_mono n 65535 Hn) as Hlog.
    change (N.log2 65535) with 15%N in Hlog.
    assert (Hk : (N.to_nat (N.log2 n) <= 15)%nat) by lia.
    revert Hl Hk. generalize (N.to_nat (N.log2 n)). intros k. simpl (length []).
    generalize (length (decimal_digits (S k) n [])). intros len. lia. }
  unfold too_many_digits.
  rewrite (proj2 (Nat.ltb_ge 640 (length (decimal n)))) by lia. reflexivity.
Qed.

(** X11. When [PORT] holds the decimal notation of a number from 0 to
    65535, [HTTPServer] is built on that number and the wildcard
    address, under any limit of the interpreter on the digits of
    integers. *)
Theorem decimal_port_is_served rt (environ : gmap string string) (port : Z) :
  0 <= port <= 65535 ->
  environ !! "PORT"%string = Some (py_str port) ->
  main rt environ = ServeForever ("0.0.0.0"%string, port).
Proof.
  intros Hport Hset. unfold main, getenv. rewrite Hset.
  by rewrite py_int_py_str_port.
Qed.

Lemma decimal_port_is_served_witness :
  main cpython {["PORT"%string := "65535"%string]} = ServeForever ("0.0.0.0"%string, 65535).
Proof.
  apply (decimal_port_is_served cpython {["PORT"%string := "65535"%string]} 65535);
    [lia | reflexivity].
Defined.
